(** * DoseNet Raspberry Pi station: dosimeter.py, auxiliaries.py and
      rt_waterfall_D3S.py

    A shallow embedding of the event window of [Dosimeter], of the two
    [LED] classes, of [DosimeterTimer] and of [NetworkStatus], with the
    properties the specification states about them, and of the queue
    methods of [Rt_Waterfall_D3S]; further properties of all of them come
    last.

    Conventions of the embedding.
    - A Python method [C.m(self, x)] is a computation over the pair
      (the object [self], the world): it may mutate both, and it either
      returns or raises.  A raised exception carries the state reached
      when it was raised, since Python does not roll mutations back.
    - The world holds what lives outside the Python objects: the GPIO
      driver, the table of [multiprocessing.Process] objects, the wall
      clock, the outcome of the [ping] commands and the trace of
      observable effects (prints, sleeps, pin writes, probes).
    - [datetime.datetime.now()] has microsecond resolution; a time stamp
      is the integer number of microseconds since [EPOCH_START_TIME].
      [time_float] turns such a number into a float of seconds; up to the
      year 2242 two datetimes a microsecond apart give two different
      floats, in the same order, so comparing two [time_float] values is
      comparing the two integers.
    - [p.terminate()] takes effect at once, and what a blink task does to
      its pin while it runs is not part of the world: the level of a pin is
      the last one written by the code under study.
    - Durations handed to [sleep] and blink periods are rationals, in
      seconds. *)

From Stdlib Require Import ZArith QArith String List Sorted Lia.
From stdpp Require Import base option list gmap.

Open Scope Z_scope.

(** ** Exceptions, results, and the state-and-exception monad *)

Inductive exn : Type :=
| RuntimeError
| EnvironmentError.

Inductive Result (S A : Type) : Type :=
| Returned (a : A) (s : S)
| Raised (e : exn) (s : S).

Arguments Returned {S A} a s.
Arguments Raised {S A} e s.

Definition M (S A : Type) : Type := S -> Result S A.

Definition ret {S A : Type} (a : A) : M S A := fun s => Returned a s.

Definition bind {S A B : Type} (m : M S A) (k : A -> M S B) : M S B :=
  fun s =>
    match m s with
    | Returned a s' => k a s'
    | Raised e s' => Raised e s'
    end.

Definition raise {S A : Type} (e : exn) : M S A := fun s => Raised e s.

(** [try: m except RuntimeError: h] *)
Definition try_except_RuntimeError {S A : Type} (m : M S A) (h : M S A) : M S A :=
  fun s =>
    match m s with
    | Raised RuntimeError s' => h s'
    | r => r
    end.

Notation "'do' x <- m ; k" := (bind m (fun x => k))
  (at level 10, x name, m at level 100, k at level 200).
Notation "m ;; k" := (bind m (fun _ => k))
  (at level 100, k at level 200, right associativity).

Definition final_state {S A : Type} (r : Result S A) : S :=
  match r with
  | Returned _ s => s
  | Raised _ s => s
  end.

Definition returns {S A : Type} (r : Result S A) : Prop :=
  match r with
  | Returned _ _ => True
  | Raised _ _ => False
  end.

Definition raises {S A : Type} (r : Result S A) (e : exn) : Prop :=
  match r with
  | Returned _ _ => False
  | Raised e' _ => e' = e
  end.

(** Running a computation on a part of the state: [self.field.m()] inside a
    method of [self], or a call into the world. *)
Definition zoom {S T A : Type} (get : S -> T) (set : T -> S -> S) (m : M T A) : M S A :=
  fun s =>
    match m (get s) with
    | Returned a t => Returned a (set t s)
    | Raised e t => Raised e (set t s)
    end.

(** ** The world *)

Inductive direction : Type := IN | OUT.

(** The part of RPi.GPIO the code relies on: the numbering mode, the
    channels that were set up, the level driven on the outputs, and the
    edge detections registered (channel to bounce time). *)
Record GPIO_state : Type := mkGPIO {
  mode_set : bool;
  channels : gmap Z direction;
  levels : gmap Z bool;
  detections : gmap Z Z
}.

Inductive target : Type :=
| do_blink_target (pin : Z) (interval : Q)
| do_pings_target (hostname : string).

(** A [multiprocessing.Process] object. *)
Record proc : Type := mkProcess {
  proc_target : target;
  alive : bool
}.

Inductive message : Type :=
| msg_no_LED
| msg_count_at (now : Z)
| msg_is_up (hostname : string)
| msg_is_down (hostname : string)
| msg_cleaning_up.

Inductive effect : Type :=
| Printed (m : message)
| Slept (seconds : Q)
| Wrote (pin : Z) (level : bool)
| Pinged (hostname : string).

Record World : Type := mkWorld {
  RPI : bool;
  gpio : GPIO_state;
  procs : list proc;
  clock : nat -> Z;
  ticks : nat;
  ping_status : nat -> Z;
  pings : nat;
  trace : list effect
}.

Definition set_gpio (g : GPIO_state) (w : World) : World :=
  mkWorld (RPI w) g (procs w) (clock w) (ticks w) (ping_status w) (pings w) (trace w).

Definition set_procs (ps : list proc) (w : World) : World :=
  mkWorld (RPI w) (gpio w) ps (clock w) (ticks w) (ping_status w) (pings w) (trace w).

Definition emit (e : effect) (w : World) : World :=
  mkWorld (RPI w) (gpio w) (procs w) (clock w) (ticks w) (ping_status w) (pings w)
          (trace w ++ [e]).

(** [datetime.datetime.now()]: the next reading of the wall clock. *)
Definition datetime_now : M World Z :=
  fun w =>
    Returned (clock w (ticks w))
      (mkWorld (RPI w) (gpio w) (procs w) (clock w) (Datatypes.S (ticks w))
               (ping_status w) (pings w) (trace w)).

(** [os.system('ping -c 1 host > /dev/null')]: the exit status of the next
    probe. *)
Definition os_system_ping (hostname : string) : M World Z :=
  fun w =>
    Returned (ping_status w (pings w))
      (mkWorld (RPI w) (gpio w) (procs w) (clock w) (ticks w)
               (ping_status w) (Datatypes.S (pings w)) (trace w ++ [Pinged hostname])).

Definition print (m : message) : M World unit :=
  fun w => Returned tt (emit (Printed m) w).

Definition sleep (seconds : Q) : M World unit :=
  fun w => Returned tt (emit (Slept seconds) w).

Module GPIO.

Definition setmode_BCM : M World unit :=
  fun w =>
    let g := gpio w in
    Returned tt (set_gpio (mkGPIO true (channels g) (levels g) (detections g)) w).

(** [GPIO.setup(pin, dir)] needs a numbering mode. *)
Definition setup (pin : Z) (dir : direction) : M World unit :=
  fun w =>
    let g := gpio w in
    if mode_set g
    then Returned tt
           (set_gpio (mkGPIO true (<[pin := dir]> (channels g)) (levels g) (detections g)) w)
    else Raised RuntimeError w.

(** [GPIO.output(pin, level)] raises RuntimeError on a channel that is not
    set up as an output, which is the case of every channel after
    [GPIO.cleanup()]. *)
Definition output (pin : Z) (level : bool) : M World unit :=
  fun w =>
    let g := gpio w in
    match channels g !! pin with
    | Some OUT =>
        Returned tt
          (emit (Wrote pin level)
             (set_gpio (mkGPIO (mode_set g) (channels g) (<[pin := level]> (levels g))
                               (detections g)) w))
    | _ => Raised RuntimeError w
    end.

(** [GPIO.add_event_detect(pin, edge, callback, bouncetime)] raises
    RuntimeError on a channel that is not set up as an input, and on a
    channel that has a detection already, which is why [reset_GPIO] removes
    the detection first. *)
Definition add_event_detect (pin : Z) (bouncetime : Z) : M World unit :=
  fun w =>
    let g := gpio w in
    match channels g !! pin with
    | Some IN =>
        match detections g !! pin with
        | None =>
            Returned tt
              (set_gpio (mkGPIO (mode_set g) (channels g) (levels g)
                                (<[pin := bouncetime]> (detections g))) w)
        | Some _ => Raised RuntimeError w
        end
    | _ => Raised RuntimeError w
    end.

Definition remove_event_detect (pin : Z) : M World unit :=
  fun w =>
    let g := gpio w in
    Returned tt
      (set_gpio (mkGPIO (mode_set g) (channels g) (levels g) (delete pin (detections g))) w).

Definition cleanup : M World unit :=
  fun w => Returned tt (set_gpio (mkGPIO false ∅ ∅ ∅) w).

End GPIO.

(** [multiprocessing.Process(target=...)], [p.start()], [p.terminate()].
    A process object is named by its index in the table.  Such an object is
    true in a Python test, so [if self.blinker:] asks whether the field is
    not None.  [start] records the task as running; a task is not followed
    into its body, so a blink task started on a pin that is not a live
    output, which dies at its first write, is still recorded: what is said
    of running blink tasks is said of live pins. *)
Module multiprocessing.

Definition Process (t : target) : M World nat :=
  fun w => Returned (length (procs w)) (set_procs (procs w ++ [mkProcess t false]) w).

Definition set_alive (b : bool) (p : proc) : proc :=
  mkProcess (proc_target p) b.

Definition start (pid : nat) : M World unit :=
  fun w => Returned tt (set_procs (alter (set_alive true) pid (procs w)) w).

Definition terminate (pid : nat) : M World unit :=
  fun w => Returned tt (set_procs (alter (set_alive false) pid (procs w)) w).

End multiprocessing.

(** [pin] is set up as an output. *)
Definition pin_live (w : World) (pin : Z) : Prop :=
  channels (gpio w) !! pin = Some OUT.

(** The level last written on [pin], when it is a live output. *)
Definition pin_level (w : World) (pin : Z) : option bool :=
  match channels (gpio w) !! pin with
  | Some OUT => levels (gpio w) !! pin
  | _ => None
  end.

(** Process [pid] of the table is a running blink task on [pin]. *)
Definition blinks_on (ps : list proc) (pin : Z) (pid : nat) : bool :=
  match ps !! pid with
  | Some (mkProcess (do_blink_target p _) true) => Z.eqb p pin
  | _ => false
  end.

(** The blink tasks that toggle [pin] and are running. *)
Definition active_blinkers (w : World) (pin : Z) : list nat :=
  List.filter (blinks_on (procs w) pin) (seq 0 (length (procs w))).

(** ** Methods: computations over (self, world) *)

Definition this {Self : Type} : M (Self * World) Self :=
  fun s => Returned (fst s) s.

Definition set_this {Self : Type} (self : Self) : M (Self * World) unit :=
  fun s => Returned tt (self, snd s).

(** A call that only touches the world. *)
Definition world {Self A : Type} (m : M World A) : M (Self * World) A :=
  zoom snd (fun w s => (fst s, w)) m.

(** [obj.m()] for an object held in a local variable: the object after the
    call is handed back with the result. *)
Definition call {Self A : Type} (self : Self) (m : M (Self * World) A) : M World (A * Self) :=
  fun w =>
    match m (self, w) with
    | Returned a s => Returned (a, fst s) (snd s)
    | Raised e s => Raised e (snd s)
    end.

(** ** dosimeter.py *)

Module dosimeter.

(** Datetimes are microseconds since this instant. *)
Definition EPOCH_START_TIME : Z := 0.

Definition SIGNAL_PIN : Z := 17.
Definition NOISE_PIN : Z := 4.
Definition NETWORK_LED_PIN : Z := 20.
Definition POWER_LED_PIN : Z := 26.
Definition COUNTS_LED_PIN : Z := 21.

Definition time_float (a_datetime : Z) : Z := a_datetime - EPOCH_START_TIME.

Definition now_float : M World Z :=
  do n <- datetime_now; ret (time_float n).

(** [datetime.timedelta(seconds=s)] *)
Definition timedelta_seconds (s : Z) : Z := s * 1000000.

Module LED.

Record t : Type := mk {
  pin : Z;
  blinker : option nat
}.

Definition __init__ (pin : Z) : M World t :=
  GPIO.setmode_BCM;;
  GPIO.setup pin OUT;;
  ret (mk pin None).

Definition on : M (t * World) unit :=
  do self <- this;
  world (GPIO.output (pin self) true).

Definition off : M (t * World) unit :=
  do self <- this;
  world (GPIO.output (pin self) false).

Definition flash : M (t * World) unit :=
  on;;
  world (sleep (5 # 1000)%Q);;
  off.

Definition start_blink (interval : Q) : M (t * World) unit :=
  do self <- this;
  match blinker self with
  | Some b => world (multiprocessing.terminate b)
  | None => ret tt
  end;;
  do p <- world (multiprocessing.Process (do_blink_target (pin self) interval));
  set_this (mk (pin self) (Some p));;
  world (multiprocessing.start p).

Definition stop_blink : M (t * World) unit :=
  do self <- this;
  match blinker self with
  | Some b => world (multiprocessing.terminate b)
  | None => ret tt
  end;;
  off.

(** The body of the blink task, for [n] rounds of its [while True]. *)
Fixpoint _do_blink (n : nat) (interval : Q) : M (t * World) unit :=
  match n with
  | O => ret tt
  | Datatypes.S n' =>
      on;;
      world (sleep (interval / 2)%Q);;
      off;;
      world (sleep (interval / 2)%Q);;
      _do_blink n' interval
  end.

End LED.

Module Dosimeter.

Record t : Type := mk {
  LED : option LED.t;
  counts : list Z;
  accum_time : Z
}.

Definition set_counts (cs : list Z) (self : t) : t :=
  mk (LED self) cs (accum_time self).

(** [self.LED.m()] for a method [m] of the LED [led] held by [self]. *)
Definition on_LED {A : Type} (led : LED.t) (m : M (LED.t * World) A) : M (t * World) A :=
  zoom (fun s => (led, snd s))
       (fun lw s => (mk (Some (fst lw)) (counts (fst s)) (accum_time (fst s)), snd lw))
       m.

Definition add_interrupt : M (t * World) unit :=
  world (GPIO.add_event_detect SIGNAL_PIN 1).

Definition __init__ (counts_LED : option LED.t) (max_accumulation_time_s : Z) : M World t :=
  match counts_LED with
  | None => print msg_no_LED
  | Some _ => ret tt
  end;;
  let self := mk counts_LED [] (timedelta_seconds max_accumulation_time_s) in
  GPIO.setmode_BCM;;
  GPIO.setup SIGNAL_PIN IN;;
  do r <- call self add_interrupt;
  ret (snd r).

Definition count : M (t * World) unit :=
  do now <- world datetime_now;
  do stamp <- world now_float;
  do self <- this;
  set_this (set_counts (counts self ++ [stamp]) self);;
  world (print (msg_count_at now));;
  match LED self with
  | Some led => on_LED led LED.flash
  | None => ret tt
  end.

(** The [while self.counts:] loop: the head of the deque is popped until it
    is newer than [now - accum_time], the clock being read at each test. *)
Fixpoint check_accumulation_loop (accum_time : Z) (counts : list Z) : M World (list Z) :=
  match counts with
  | [] => ret []
  | c0 :: rest =>
      do now <- datetime_now;
      if c0 >? time_float (now - accum_time)
      then ret counts
      else check_accumulation_loop accum_time rest
  end.

Definition check_accumulation : M (t * World) unit :=
  do self <- this;
  do cs <- world (check_accumulation_loop (accum_time self) (counts self));
  set_this (set_counts cs self).

(** The deque itself is returned, not a copy: the value is the window as
    it stands when the call returns. *)
Definition get_all_counts : M (t * World) (list Z) :=
  check_accumulation;;
  do self <- this;
  ret (counts self).

Definition reset_GPIO : M (t * World) unit :=
  world (GPIO.remove_event_detect SIGNAL_PIN);;
  add_interrupt.

Definition cleanup : M (t * World) unit :=
  world (print msg_cleaning_up);;
  world GPIO.cleanup.

End Dosimeter.

Module DosimeterTimer.

Record t : Type := mk {
  network_LED : LED.t;
  power_LED : LED.t;
  counts_LED : LED.t;
  dosimeter : Dosimeter.t;
  DT : Q;
  running : bool
}.

Definition set_running (b : bool) (self : t) : t :=
  mk (network_LED self) (power_LED self) (counts_LED self) (dosimeter self) (DT self) b.

Definition __init__ (network_LED_pin power_LED_pin counts_LED_pin : Z)
    (time_interval_s : Q) : M World t :=
  do network_LED <- LED.__init__ network_LED_pin;
  do power_LED <- LED.__init__ power_LED_pin;
  do counts_LED <- LED.__init__ counts_LED_pin;
  do r <- call power_LED LED.on;
  do dosimeter <- Dosimeter.__init__ (Some counts_LED) 3600;
  ret (mk network_LED (snd r) counts_LED dosimeter time_interval_s false).

Definition default_time_interval_s : Q := 300%Q.

(** The [while self.running:] loop of [start], for at most [n] rounds. *)
Fixpoint start_loop (n : nat) : M (t * World) unit :=
  match n with
  | O => ret tt
  | Datatypes.S n' =>
      do self <- this;
      if running self
      then world (sleep 10%Q);; start_loop n'
      else ret tt
  end.

Definition start (n : nat) : M (t * World) unit :=
  do this_start <- world datetime_now;
  do self <- this;
  set_this (set_running true self);;
  start_loop n.

Definition stop : M (t * World) unit :=
  do self <- this;
  set_this (set_running false self).

End DosimeterTimer.

End dosimeter.

(** ** auxiliaries.py *)

Module auxiliaries.

Module LED.

Record t : Type := mk {
  pin : Z;
  blinker : option nat
}.

(** [RPI] is false when [import RPi.GPIO] failed. *)
Definition __init__ (pin : Z) : M World t :=
  fun w =>
    if RPI w
    then (GPIO.setmode_BCM;;
          GPIO.setup pin OUT;;
          ret (mk pin None)) w
    else Raised EnvironmentError w.

Definition on : M (t * World) unit :=
  do self <- this;
  world (GPIO.output (pin self) true).

Definition off : M (t * World) unit :=
  do self <- this;
  try_except_RuntimeError
    (world (GPIO.output (pin self) false))
    (ret tt).

Definition flash : M (t * World) unit :=
  on;;
  world (sleep (5 # 1000)%Q);;
  off.

Definition start_blink (interval : Q) : M (t * World) unit :=
  do self <- this;
  match blinker self with
  | Some b => world (multiprocessing.terminate b)
  | None => ret tt
  end;;
  do p <- world (multiprocessing.Process (do_blink_target (pin self) interval));
  set_this (mk (pin self) (Some p));;
  world (multiprocessing.start p).

Definition stop_blink : M (t * World) unit :=
  do self <- this;
  match blinker self with
  | Some b => world (multiprocessing.terminate b)
  | None => ret tt
  end;;
  off.

(** The body of the blink task, for [n] rounds of its [while True]. *)
Fixpoint _do_blink (n : nat) (interval : Q) : M (t * World) unit :=
  match n with
  | O => ret tt
  | Datatypes.S n' =>
      on;;
      world (sleep (interval / 2)%Q);;
      off;;
      world (sleep (interval / 2)%Q);;
      _do_blink n' interval
  end.

End LED.

Module NetworkStatus.

Record t : Type := mk {
  hostname : string;
  up_interval_s : Q;
  down_interval_s : Q;
  led : option LED.t;
  blink_period_s : Q;
  v : Z;
  is_up : bool;
  _p : option nat
}.

Definition set_is_up (b : bool) (self : t) : t :=
  mk (hostname self) (up_interval_s self) (down_interval_s self) (led self)
     (blink_period_s self) (v self) b (_p self).

Definition set_led (l : option LED.t) (self : t) : t :=
  mk (hostname self) (up_interval_s self) (down_interval_s self) l
     (blink_period_s self) (v self) (is_up self) (_p self).

Definition set__p (p : option nat) (self : t) : t :=
  mk (hostname self) (up_interval_s self) (down_interval_s self) (led self)
     (blink_period_s self) (v self) (is_up self) p.

(** [self.led.m()] for a method [m] of the LED [l] held by [self]. *)
Definition on_led {A : Type} (l : LED.t) (m : M (LED.t * World) A) : M (t * World) A :=
  zoom (fun s => (l, snd s))
       (fun lw s => (set_led (Some (fst lw)) (fst s), snd lw))
       m.

(** The [vprint] that [set_verbosity] attaches to the instance. *)
Definition vprint (level : Z) (m : message) : M (t * World) unit :=
  do self <- this;
  if v self >=? level then world (print m) else ret tt.

Definition __init__ (hostname : string) (up_interval_s down_interval_s : Q)
    (network_led : option LED.t) (verbosity : Z) : M World t :=
  let self := mk hostname up_interval_s down_interval_s network_led (15 # 10)%Q
                 verbosity false None in
  do p <- multiprocessing.Process (do_pings_target hostname);
  multiprocessing.start p;;
  ret (set__p (Some p) self).

Definition _ping : M (t * World) Z :=
  do self <- this;
  world (os_system_ping (hostname self)).

Definition update : M (t * World) unit :=
  do response <- _ping;
  do self <- this;
  if response =? 0
  then
    set_this (set_is_up true self);;
    match led self with
    | Some l =>
        on_led l
          (do l' <- this;
           match LED.blinker l' with
           | Some _ => LED.stop_blink
           | None => ret tt
           end;;
           LED.on)
    | None => ret tt
    end;;
    vprint 2 (msg_is_up (hostname self))
  else
    set_this (set_is_up false self);;
    match led self with
    | Some l => on_led l (LED.start_blink (blink_period_s self))
    | None => ret tt
    end;;
    vprint 1 (msg_is_down (hostname self)).

Definition __bool__ (self : t) : bool := is_up self.

(** The [while True:] loop of [_do_pings], for [n] rounds. *)
Fixpoint _do_pings (n : nat) : M (t * World) unit :=
  match n with
  | O => ret tt
  | Datatypes.S n' =>
      update;;
      do self <- this;
      (if __bool__ self
       then world (sleep (up_interval_s self))
       else world (sleep (down_interval_s self)));;
      _do_pings n'
  end.

Definition cleanup : M (t * World) unit :=
  world GPIO.cleanup.

End NetworkStatus.

End auxiliaries.

(** ** rt_waterfall_D3S.py *)

(** The methods of [Rt_Waterfall_D3S] that work on the two deques handed to
    them.  A spectrum is a sequence of channel counts; a deque is the list
    of its items, oldest first.  The methods mutate the deques they are
    given, so it matters whether [queue1] and [queue2] are one object or
    two: the pair of arguments is either one deque, passed twice, or two
    deques. *)
Module rt_waterfall_D3S.

Inductive error : Type :=
| IndexError
| RuntimeError_deque_mutated.

Inductive queues : Type :=
| one_deque (q : list (list Z))
| two_deques (q1 q2 : list (list Z)).

Definition queue1 (qs : queues) : list (list Z) :=
  match qs with
  | one_deque q => q
  | two_deques q1 _ => q1
  end.

Definition queue2 (qs : queues) : list (list Z) :=
  match qs with
  | one_deque q => q
  | two_deques _ q2 => q2
  end.

Definition set_queue1 (q : list (list Z)) (qs : queues) : queues :=
  match qs with
  | one_deque _ => one_deque q
  | two_deques _ q2 => two_deques q q2
  end.

Definition set_queue2 (q : list (list Z)) (qs : queues) : queues :=
  match qs with
  | one_deque _ => one_deque q
  | two_deques q1 _ => two_deques q1 q
  end.

(** The attributes the methods read or write: [image], [queuelength] (set
    to None by the constructor) and [queue_length] (created by
    [waterfall_graph]). *)
Record t : Type := mk {
  queuelength : option nat;
  image : option (list (list Z));
  queue_length : option nat
}.

Definition set_image (img : list (list Z)) (self : t) : t :=
  mk (queuelength self) (Some img) (queue_length self).

Definition set_queue_length (n : nat) (self : t) : t :=
  mk (queuelength self) (image self) (Some n).

Inductive Outcome (A : Type) : Type :=
| Done (a : A) (s : t * queues)
| Failed (e : error) (s : t * queues).

Arguments Done {A} a s.
Arguments Failed {A} e s.

Definition W (A : Type) : Type := t * queues -> Outcome A.

Definition wret {A : Type} (a : A) : W A := fun s => Done a s.

Definition wbind {A B : Type} (m : W A) (k : A -> W B) : W B :=
  fun s =>
    match m s with
    | Done a s' => k a s'
    | Failed e s' => Failed e s'
    end.

Notation "'run' x <- m ; k" := (wbind m (fun x => k))
  (at level 10, x name, m at level 100, k at level 200).
Notation "m >> k" := (wbind m (fun _ => k))
  (at level 100, k at level 200, right associativity).

Definition state_after {A : Type} (o : Outcome A) : t * queues :=
  match o with
  | Done _ s => s
  | Failed _ s => s
  end.

(** [queue1.append(x)], [queue2.append(x)], [queue1.popleft()] *)
Definition queue1_append (x : list Z) : W unit :=
  fun s => Done tt (fst s, set_queue1 (queue1 (snd s) ++ [x]) (snd s)).

Definition queue2_append (x : list Z) : W unit :=
  fun s => Done tt (fst s, set_queue2 (queue2 (snd s) ++ [x]) (snd s)).

Definition queue1_popleft : W (list Z) :=
  fun s =>
    match queue1 (snd s) with
    | x :: q => Done x (fst s, set_queue1 q (snd s))
    | [] => Failed IndexError s
    end.

Definition get_data (spectra : list Z) : W unit :=
  queue1_append spectra >>
  queue2_append spectra.

(** The [while i < 256:] loop of [fix_array], with [todo] rounds to go from
    index [i]: [array[i]] raises IndexError past the end of [array]. *)
Fixpoint fix_array_loop (todo i : nat) (array new_array : list Z) : error + list Z :=
  match todo with
  | O => inr new_array
  | Datatypes.S todo' =>
      match array !! i with
      | Some x => fix_array_loop todo' (Datatypes.S i) array (<[i := x]> new_array)
      | None => inl IndexError
      end
  end.

Definition fix_array (array : list Z) : error + list Z :=
  fix_array_loop 256 0 array (replicate 256 0).

(** [for i in queue2: queue1.append(i)].  Over one deque passed twice, the
    iterator finds the deque mutated after the first append. *)
Definition reset_queue : W unit :=
  fun s =>
    match snd s with
    | two_deques q1 q2 =>
        Done tt (fst s, two_deques (fold_left (fun q i => q ++ [i]) q2 q1) q2)
    | one_deque [] => Done tt s
    | one_deque (i :: q) =>
        Failed RuntimeError_deque_mutated (fst s, one_deque ((i :: q) ++ [i]))
    end.

(** The [while i < length:] loop of [make_image], with [todo] rounds to go
    from row [i]. *)
Fixpoint make_image_loop (todo i : nat) : W unit :=
  match todo with
  | O => wret tt
  | Datatypes.S todo' =>
      run array <- queue1_popleft;
      fun s =>
        match fix_array array with
        | inr row =>
            make_image_loop todo' (Datatypes.S i)
              (set_image (<[i := row]> (default [] (image (fst s)))) (fst s), snd s)
        | inl e => Failed e s
        end
  end.

Definition make_image : W unit :=
  fun s =>
    let length := length (queue1 (snd s)) in
    (make_image_loop length 0 >> reset_queue)
      (set_image (replicate length (replicate 256 0)) (fst s), snd s).

Definition waterfall_graph (spectra : list Z) : W unit :=
  get_data spectra >>
  (fun s => Done tt (set_queue_length (length (queue2 (snd s))) (fst s), snd s)) >>
  make_image.

Definition update (spectra : list Z) : W unit :=
  waterfall_graph spectra.

End rt_waterfall_D3S.

(** A spectrum [fix_array] can copy: it has the 256 channels. *)
Definition full_spectrum (a : list Z) : Prop := (256 <= length a)%nat.

(** Feeding spectra to [update] one after the other, on the same deques. *)
Definition feed (ss : list (list Z)) (s : rt_waterfall_D3S.t * rt_waterfall_D3S.queues) :
    rt_waterfall_D3S.t * rt_waterfall_D3S.queues :=
  fold_left (fun s a => rt_waterfall_D3S.state_after (rt_waterfall_D3S.update a s)) ss s.

(** ** Vocabulary of the statements *)

(** The world after [n] further readings of the clock. *)
Definition advance (n : nat) (w : World) : World :=
  mkWorld (RPI w) (gpio w) (procs w) (clock w) (n + ticks w)%nat
          (ping_status w) (pings w) (trace w).

(** Every reading of the clock gives [now]: the clock as one call sees it
    when the call takes no time. *)
Definition clock_reads (w : World) (now : Z) : Prop :=
  forall k : nat, clock w k = now.

(** The clock never goes back. *)
Definition clock_monotone (w : World) : Prop :=
  forall i j : nat, (i <= j)%nat -> clock w i <= clock w j.

(** A world just booted on a Raspberry Pi: nothing set up, no process, no
    effect yet. *)
Definition boot_world (clock : nat -> Z) (ping_status : nat -> Z) : World :=
  mkWorld true (mkGPIO false ∅ ∅ ∅) [] clock 0 ping_status 0 [].

(** The same world once [GPIO.setup(pin, GPIO.OUT)] was done. *)
Definition world_with_output (pin : Z) (clock : nat -> Z) (ping_status : nat -> Z) : World :=
  mkWorld true (mkGPIO true {[ pin := OUT ]} ∅ ∅) [] clock 0 ping_status 0 [].

(** The window invariant of a [Dosimeter] between two calls: time stamps in
    arrival order, none later than the next reading of the clock. *)
Definition window_ok (self : dosimeter.Dosimeter.t) (w : World) : Prop :=
  Sorted Z.le (dosimeter.Dosimeter.counts self) /\
  Forall (fun t => t <= clock w (ticks w)) (dosimeter.Dosimeter.counts self).

(** The only blink task that may be running on the pin of [led] is the one
    its [blinker] field names. *)
Definition owns_blinkers (led : auxiliaries.LED.t) (w : World) : Prop :=
  forall pid : nat,
    blinks_on (procs w) (auxiliaries.LED.pin led) pid = true ->
    auxiliaries.LED.blinker led = Some pid.

(** [led] has no blink task, or the one it had is terminated. *)
Definition blinker_idle (led : auxiliaries.LED.t) (w : World) : Prop :=
  match auxiliaries.LED.blinker led with
  | None => True
  | Some b =>
      match procs w !! b with
      | Some p => alive p = false
      | None => True
      end
  end.

(** What [start_blink] and [stop_blink] do to the table before anything
    else: the task named by [blinker], if any, is terminated. *)
Definition terminated (b : option nat) (ps : list proc) : list proc :=
  match b with
  | Some pid => alter (multiprocessing.set_alive false) pid ps
  | None => ps
  end.

(** The table once a new task was created on [ps] and started. *)
Definition spawned (t : target) (ps : list proc) : list proc :=
  alter (multiprocessing.set_alive true) (length ps) (ps ++ [mkProcess t false]).

(** The world once [GPIO.output(pin, level)] went through. *)
Definition driven (pin : Z) (level : bool) (w : World) : World :=
  emit (Wrote pin level)
    (set_gpio (mkGPIO (mode_set (gpio w)) (channels (gpio w))
                      (<[pin := level]> (levels (gpio w))) (detections (gpio w))) w).

(** The probes and the sleeps of a trace, in order. *)
Definition is_probe_or_sleep (e : effect) : bool :=
  match e with
  | Pinged _ | Slept _ => true
  | Printed _ | Wrote _ _ => false
  end.

Definition probes_and_sleeps (tr : list effect) : list effect :=
  List.filter is_probe_or_sleep tr.

(** The LED a [NetworkStatus] drives, if it has one, is on a live pin. *)
Definition led_ready (self : auxiliaries.NetworkStatus.t) (w : World) : Prop :=
  match auxiliaries.NetworkStatus.led self with
  | Some l => pin_live w (auxiliaries.LED.pin l)
  | None => True
  end.

(** What the monitor is configured with: everything but [is_up] and the
    state of its LED. *)
Definition same_settings (self self' : auxiliaries.NetworkStatus.t) : Prop :=
  auxiliaries.NetworkStatus.hostname self' = auxiliaries.NetworkStatus.hostname self /\
  auxiliaries.NetworkStatus.up_interval_s self' = auxiliaries.NetworkStatus.up_interval_s self /\
  auxiliaries.NetworkStatus.down_interval_s self' =
    auxiliaries.NetworkStatus.down_interval_s self /\
  auxiliaries.NetworkStatus.blink_period_s self' =
    auxiliaries.NetworkStatus.blink_period_s self /\
  auxiliaries.NetworkStatus.v self' = auxiliaries.NetworkStatus.v self.

(** The probes and sleeps of the rounds whose probes end with the exit
    statuses [rs]: each round probes, then sleeps the interval of the state
    the probe has set. *)
Definition schedule (self : auxiliaries.NetworkStatus.t) (rs : list Z) : list effect :=
  flat_map
    (fun r =>
       [Pinged (auxiliaries.NetworkStatus.hostname self);
        Slept (if r =? 0
               then auxiliaries.NetworkStatus.up_interval_s self
               else auxiliaries.NetworkStatus.down_interval_s self)])
    rs.

(** The exit statuses of the next [n] probes. *)
Definition next_statuses (w : World) (n : nat) : list Z :=
  map (fun k => ping_status w (k + pings w)%nat) (seq 0 n).

(** [w'] differs from [w] by nothing the monitor loop depends on or is
    observed by: same channels, same probes to come, same probes and sleeps
    done. *)
Definition quiet (w w' : World) : Prop :=
  channels (gpio w') = channels (gpio w) /\
  pings w' = pings w /\
  ping_status w' = ping_status w /\
  probes_and_sleeps (trace w') = probes_and_sleeps (trace w).

(** The state [count] has reached when the flash is about to start: both
    readings of the clock are done, the second one is appended to the window
    and the first one is printed. *)
Definition counted (self : dosimeter.Dosimeter.t) (w : World) : dosimeter.Dosimeter.t * World :=
  (dosimeter.Dosimeter.set_counts
     (dosimeter.Dosimeter.counts self ++ [dosimeter.time_float (clock w (Datatypes.S (ticks w)))]) self,
   emit (Printed (msg_count_at (clock w (ticks w)))) (advance 2 w)).

(** A caller of a [Dosimeter]: the interrupt layer calls [count], an
    aggregator calls the two others.  A call that raises leaves the object
    as it was when the exception left it, and the caller goes on. *)
Inductive Dosimeter_call : Type :=
| call_count
| call_check_accumulation
| call_get_all_counts.

Definition Dosimeter_step (c : Dosimeter_call) (s : dosimeter.Dosimeter.t * World) :
    dosimeter.Dosimeter.t * World :=
  match c with
  | call_count => final_state (dosimeter.Dosimeter.count s)
  | call_check_accumulation => final_state (dosimeter.Dosimeter.check_accumulation s)
  | call_get_all_counts => final_state (dosimeter.Dosimeter.get_all_counts s)
  end.

Definition Dosimeter_run (cs : list Dosimeter_call) (s : dosimeter.Dosimeter.t * World) :
    dosimeter.Dosimeter.t * World :=
  fold_left (fun s c => Dosimeter_step c s) cs s.

Definition is_call_count (c : Dosimeter_call) : bool :=
  match c with
  | call_count => true
  | _ => false
  end.

(** One round of the blink task on [pin]: high for half the period, low for
    the other half. *)
Definition blink_round (pin : Z) (interval : Q) : list effect :=
  [Wrote pin true; Slept (interval / 2)%Q; Wrote pin false; Slept (interval / 2)%Q].

(** A user of an LED of auxiliaries.py; as for the Dosimeter, a call that
    raises leaves the object as it was when the exception left it. *)
Inductive LED_call : Type :=
| led_on
| led_off
| led_flash
| led_start_blink (interval : Q)
| led_stop_blink.

Definition LED_step (c : LED_call) (s : auxiliaries.LED.t * World) :
    auxiliaries.LED.t * World :=
  match c with
  | led_on => final_state (auxiliaries.LED.on s)
  | led_off => final_state (auxiliaries.LED.off s)
  | led_flash => final_state (auxiliaries.LED.flash s)
  | led_start_blink interval => final_state (auxiliaries.LED.start_blink interval s)
  | led_stop_blink => final_state (auxiliaries.LED.stop_blink s)
  end.

Definition LED_run (cs : list LED_call) (s : auxiliaries.LED.t * World) :
    auxiliaries.LED.t * World :=
  fold_left (fun s c => LED_step c s) cs s.

(** The messages printed in a trace, in order. *)
Definition is_printed (e : effect) : bool :=
  match e with
  | Printed _ => true
  | _ => false
  end.

Definition printed (tr : list effect) : list effect :=
  List.filter is_printed tr.

(** What [vprint level m] adds to the trace of an instance of verbosity [v]. *)
Definition vprinted (v level : Z) (m : message) : list effect :=
  if v >=? level then [Printed m] else [].

(** * Properties *)

Import dosimeter.

(** ** The event window *)

Lemma advance_advance (n m : nat) (w : World) :
  advance n (advance m w) = advance (n + m) w.
Proof.
  unfold advance; simpl. f_equal. lia.
Qed.

Lemma advance_0 (w : World) : advance 0 w = w.
Proof. destruct w; reflexivity. Qed.

(** What the loop of [check_accumulation] does under any clock: it returns,
    having popped a prefix [removed] of the deque; the i-th popped stamp was
    not newer than the i-th reading minus the retention, and the head that
    stops the loop, if any, is newer than the last reading minus the
    retention. *)
Lemma check_accumulation_loop_spec (accum : Z) (cs : list Z) :
  forall w : World,
  exists (removed kept : list Z) (n : nat),
    Dosimeter.check_accumulation_loop accum cs w = Returned kept (advance n w) /\
    cs = removed ++ kept /\
    (forall (i : nat) (t : Z),
        removed !! i = Some t -> t <= clock w (i + ticks w) - accum) /\
    match kept with
    | [] => n = length removed
    | c :: _ => n = Datatypes.S (length removed) /\
                clock w (length removed + ticks w) - accum < c
    end.
Proof.
  induction cs as [| c rest IH]; intros w.
  - exists [], [], 0%nat. rewrite advance_0. simpl.
    repeat split; try reflexivity. intros i t H. destruct i; discriminate.
  - cbn [Dosimeter.check_accumulation_loop]. unfold bind, datetime_now.
    unfold time_float, EPOCH_START_TIME. rewrite Z.sub_0_r.
    destruct (Z.gtb_spec c (clock w (ticks w) - accum)) as [Hnew | Hold].
    + exists [], (c :: rest), 1%nat. unfold ret, advance. simpl.
      repeat split; try reflexivity; try lia.
      intros i t H. destruct i; discriminate.
    + destruct (IH (advance 1 w)) as (removed & kept & n & Hrun & Hsplit & Hrem & Hkept).
      exists (c :: removed), kept, (Datatypes.S n).
      change (mkWorld (RPI w) (gpio w) (procs w) (clock w) (Datatypes.S (ticks w))
                      (ping_status w) (pings w) (trace w)) with (advance 1 w).
      rewrite Hrun, advance_advance. rewrite Nat.add_1_r.
      split; [reflexivity |]. split; [simpl; congruence |]. split.
      * intros [| i] t H; simpl in H.
        -- inversion H; subst. simpl. lia.
        -- specialize (Hrem i t H). simpl in Hrem.
           replace (Datatypes.S i + ticks w)%nat with (i + Datatypes.S (ticks w))%nat by lia.
           exact Hrem.
      * destruct kept as [| k kept']; simpl in *.
        -- congruence.
        -- destruct Hkept as [-> Hk]. split; [reflexivity |].
           replace (Datatypes.S (length removed + ticks w))%nat
             with (length removed + Datatypes.S (ticks w))%nat by lia.
           exact Hk.
Qed.

(** The same under a clock that reads [now] throughout. *)
Lemma check_accumulation_loop_frozen (accum now : Z) (cs : list Z) (w : World) :
  clock_reads w now ->
  exists (removed kept : list Z) (n : nat),
    Dosimeter.check_accumulation_loop accum cs w = Returned kept (advance n w) /\
    cs = removed ++ kept /\
    Forall (fun t => accum <= now - t) removed /\
    match kept with
    | [] => True
    | c :: _ => now - c < accum
    end.
Proof.
  intros Hnow.
  destruct (check_accumulation_loop_spec accum cs w)
    as (removed & kept & n & Hrun & Hsplit & Hrem & Hkept).
  exists removed, kept, n. repeat split; try assumption.
  - apply Forall_forall. intros t Hin.
    apply list_elem_of_lookup in Hin. destruct Hin as [i Hi].
    specialize (Hrem i t Hi). rewrite Hnow in Hrem. lia.
  - destruct kept as [| c kept']; [exact I |].
    destruct Hkept as [_ Hk]. rewrite Hnow in Hk. lia.
Qed.

Lemma check_accumulation_unfold (self : Dosimeter.t) (w : World) :
  Dosimeter.check_accumulation (self, w) =
  match Dosimeter.check_accumulation_loop
          (Dosimeter.accum_time self) (Dosimeter.counts self) w with
  | Returned cs w' => Returned tt (Dosimeter.set_counts cs self, w')
  | Raised e w' => Raised e (self, w')
  end.
Proof.
  unfold Dosimeter.check_accumulation, bind, this, world, zoom, set_this. simpl.
  destruct (Dosimeter.check_accumulation_loop _ _ w); reflexivity.
Qed.

Lemma get_all_counts_unfold (self : Dosimeter.t) (w : World) :
  Dosimeter.get_all_counts (self, w) =
  match Dosimeter.check_accumulation (self, w) with
  | Returned _ s => Returned (Dosimeter.counts (fst s)) s
  | Raised e s => Raised e s
  end.
Proof.
  unfold Dosimeter.get_all_counts, bind, this, ret.
  destruct (Dosimeter.check_accumulation (self, w)); reflexivity.
Qed.

Lemma clock_reads_advance (n : nat) (w : World) (now : Z) :
  clock_reads w now -> clock_reads (advance n w) now.
Proof. intros H k. apply H. Qed.

(** A sorted window whose head is newer than a bound is newer throughout. *)
Lemma sorted_head_bound (c : Z) (cs : list Z) (b : Z) :
  Sorted Z.le (c :: cs) -> b < c -> Forall (fun t => b < t) (c :: cs).
Proof.
  intros Hs Hb.
  apply Sorted_StronglySorted in Hs; [| intros x y z; apply Z.le_trans].
  apply StronglySorted_inv in Hs. destruct Hs as [_ Hall].
  constructor; [exact Hb |].
  eapply Forall_impl; [exact Hall |]. simpl. intros t Ht. lia.
Qed.

Lemma sorted_app_r (l1 l2 : list Z) :
  Sorted Z.le (l1 ++ l2) -> Sorted Z.le l2.
Proof.
  induction l1 as [| a l1 IH]; simpl; intros H; [exact H |].
  apply IH. inversion H; assumption.
Qed.

Lemma check_accumulation_loop_fresh_head (accum c : Z) (rest : list Z) (w : World) :
  clock w (ticks w) - accum < c ->
  Dosimeter.check_accumulation_loop accum (c :: rest) w = Returned (c :: rest) (advance 1 w).
Proof.
  intros H. cbn [Dosimeter.check_accumulation_loop]. unfold bind, datetime_now.
  unfold time_float, EPOCH_START_TIME. rewrite Z.sub_0_r.
  destruct (Z.gtb_spec c (clock w (ticks w) - accum)) as [_ | Hold]; [reflexivity | lia].
Qed.

(** [check_accumulation] at a time [now] on a window in arrival order. *)
Lemma check_accumulation_sorted_frozen (self : Dosimeter.t) (w : World) (now : Z) :
  clock_reads w now ->
  Sorted Z.le (Dosimeter.counts self) ->
  exists (removed kept : list Z) (w' : World),
    Dosimeter.check_accumulation (self, w) =
      Returned tt (Dosimeter.set_counts kept self, w') /\
    Dosimeter.counts self = removed ++ kept /\
    Forall (fun t => now - t < Dosimeter.accum_time self) kept /\
    Forall (fun t => Dosimeter.accum_time self <= now - t) removed.
Proof.
  intros Hnow Hsorted.
  destruct (check_accumulation_loop_frozen (Dosimeter.accum_time self) now
              (Dosimeter.counts self) w Hnow)
    as (removed & kept & n & Hrun & Hsplit & Hrem & Hkept).
  assert (Hfresh : Forall (fun t => now - t < Dosimeter.accum_time self) kept).
  { destruct kept as [| c kept']; [constructor |].
    rewrite Hsplit in Hsorted. apply sorted_app_r in Hsorted.
    pose proof (sorted_head_bound c kept' (now - Dosimeter.accum_time self) Hsorted
                  ltac:(lia)) as Hall.
    eapply Forall_impl; [exact Hall |]. simpl. intros t Ht. lia. }
  exists removed, kept, (advance n w).
  rewrite check_accumulation_unfold, Hrun.
  repeat split; assumption.
Qed.

(** C1, as the code has it: the comparison that stops the loop is strict, so
    an event is kept when its age is below the retention and popped when its
    age has reached it.  For a window in arrival order and a call at time
    [now], [check_accumulation] returns, pops a prefix of the window, every
    event left has [now - t < accum_time], every event popped has
    [accum_time <= now - t], and no event whose age is exactly the retention
    is left. *)
Theorem check_accumulation_trims (self : Dosimeter.t) (w : World) (now : Z) :
  clock_reads w now ->
  Sorted Z.le (Dosimeter.counts self) ->
  exists (removed kept : list Z) (w' : World),
    Dosimeter.check_accumulation (self, w) =
      Returned tt (Dosimeter.set_counts kept self, w') /\
    Dosimeter.counts self = removed ++ kept /\
    Forall (fun t => now - t < Dosimeter.accum_time self) kept /\
    Forall (fun t => Dosimeter.accum_time self <= now - t) removed /\
    Forall (fun t => now - t <> Dosimeter.accum_time self) kept.
Proof.
  intros Hnow Hsorted.
  destruct (check_accumulation_sorted_frozen self w now Hnow Hsorted)
    as (removed & kept & w' & Hrun & Hsplit & Hfresh & Hstale).
  exists removed, kept, w'.
  repeat split; try assumption.
  eapply Forall_impl; [exact Hfresh |]. simpl. intros t Ht. lia.
Qed.

Lemma check_accumulation_trims_witness :
  exists (removed kept : list Z) (w' : World),
    Dosimeter.check_accumulation
      (Dosimeter.mk None [0; 35000000] 30000000,
       boot_world (fun _ => 36000000) (fun _ => 0)) =
      Returned tt (Dosimeter.mk None kept 30000000, w') /\
    [0; 35000000] = removed ++ kept /\
    Forall (fun t => 36000000 - t < 30000000) kept /\
    Forall (fun t => 30000000 <= 36000000 - t) removed /\
    Forall (fun t => 36000000 - t <> 30000000) kept.
Proof.
  apply (check_accumulation_trims
           (Dosimeter.mk None [0; 35000000] 30000000)
           (boot_world (fun _ => 36000000) (fun _ => 0)) 36000000).
  - intros k. reflexivity.
  - simpl. repeat constructor. lia.
Defined.

(** C1 as the specification words it fails at the boundary: with a retention
    of 30 s, the event stamped 0 is popped by a call at 30 s, when its age is
    exactly the retention and not above it. *)
Lemma check_accumulation_boundary_evicted :
  Sorted Z.le [0] /\
  Dosimeter.check_accumulation
    (Dosimeter.mk None [0] (timedelta_seconds 30),
     boot_world (fun _ => 30000000) (fun _ => 0)) =
    Returned tt
      (Dosimeter.mk None [] (timedelta_seconds 30),
       advance 1 (boot_world (fun _ => 30000000) (fun _ => 0))) /\
  30000000 - 0 = timedelta_seconds 30 /\
  ~ (30000000 - 0 > timedelta_seconds 30).
Proof.
  split; [repeat constructor |].
  split; [reflexivity |].
  split; [reflexivity |].
  unfold timedelta_seconds. lia.
Qed.

(** C7: sampling at time [now] pops a prefix of the window, every event of
    which has reached the retention, and stops at the first event younger
    than the retention, which heads what is returned and what the window
    becomes; a second sampling at the same time, with nothing recorded in
    between, returns the same sequence, hence the same count, and leaves the
    [Dosimeter] as the first one left it; so no event younger than the
    retention is ever dropped by sampling. *)
Theorem get_all_counts_twice_equal (self : Dosimeter.t) (w : World) (now : Z) :
  clock_reads w now ->
  exists (removed cs1 cs2 : list Z) (self1 : Dosimeter.t) (w1 w2 : World),
    Dosimeter.get_all_counts (self, w) = Returned cs1 (self1, w1) /\
    Dosimeter.get_all_counts (self1, w1) = Returned cs2 (self1, w2) /\
    cs2 = cs1 /\
    length cs2 = length cs1 /\
    Forall (fun t => now - t < Dosimeter.accum_time self -> In t cs1)
           (Dosimeter.counts self) /\
    Dosimeter.counts self = removed ++ cs1 /\
    Forall (fun t => Dosimeter.accum_time self <= now - t) removed /\
    match cs1 with
    | [] => True
    | c :: _ => now - c < Dosimeter.accum_time self
    end /\
    self1 = Dosimeter.set_counts cs1 self.
Proof.
  intros Hnow.
  destruct (check_accumulation_loop_frozen (Dosimeter.accum_time self) now
              (Dosimeter.counts self) w Hnow)
    as (removed & kept & n & Hrun & Hsplit & Hrem & Hkept).
  exists removed, kept, kept, (Dosimeter.set_counts kept self), (advance n w),
    (advance (match kept with [] => 0 | _ => 1 end) (advance n w)).
  split.
  { rewrite get_all_counts_unfold, check_accumulation_unfold, Hrun. reflexivity. }
  split.
  { rewrite get_all_counts_unfold, check_accumulation_unfold.
    cbn [Dosimeter.set_counts Dosimeter.counts Dosimeter.accum_time].
    destruct kept as [| c kept'].
    - rewrite advance_0. reflexivity.
    - rewrite check_accumulation_loop_fresh_head; [reflexivity |].
      rewrite (clock_reads_advance n w now Hnow). lia. }
  split; [reflexivity |]. split; [reflexivity |].
  split.
  { apply Forall_forall. intros t Hin Hyoung.
    rewrite Hsplit in Hin. apply elem_of_app in Hin. destruct Hin as [Hin | Hin].
    - rewrite Forall_forall in Hrem. specialize (Hrem t Hin). simpl in Hrem. lia.
    - apply list_elem_of_In. exact Hin. }
  split; [exact Hsplit |]. split; [exact Hrem |]. split; [exact Hkept | reflexivity].
Qed.

Lemma get_all_counts_twice_equal_witness :
  exists (removed cs1 cs2 : list Z) (self1 : Dosimeter.t) (w1 w2 : World),
    Dosimeter.get_all_counts
      (Dosimeter.mk None [0; 35000000] 30000000,
       boot_world (fun _ => 36000000) (fun _ => 0)) = Returned cs1 (self1, w1) /\
    Dosimeter.get_all_counts (self1, w1) = Returned cs2 (self1, w2) /\
    cs2 = cs1 /\
    length cs2 = length cs1 /\
    Forall (fun t => 36000000 - t < 30000000 -> In t cs1) [0; 35000000] /\
    [0; 35000000] = removed ++ cs1 /\
    Forall (fun t => 30000000 <= 36000000 - t) removed /\
    match cs1 with
    | [] => True
    | c :: _ => 36000000 - c < 30000000
    end /\
    self1 = Dosimeter.mk None cs1 30000000.
Proof.
  apply (get_all_counts_twice_equal
           (Dosimeter.mk None [0; 35000000] 30000000)
           (boot_world (fun _ => 36000000) (fun _ => 0)) 36000000).
  intros k. reflexivity.
Defined.

(** C9, as the code has it: [get_all_counts] runs [check_accumulation]
    itself before it returns the window, and the trimming stops at the first
    event younger than the retention.  So on a window in arrival order,
    whatever was or was not trimmed before, what it returns at time [now] is
    the window less a prefix of events that have all reached the retention,
    it is what the window has become, and it holds no event older than the
    retention (each one is in fact younger). *)
Theorem get_all_counts_trims_first (self : Dosimeter.t) (w : World) (now : Z) :
  clock_reads w now ->
  Sorted Z.le (Dosimeter.counts self) ->
  exists (removed : list Z) (self' : Dosimeter.t) (w' : World),
    Dosimeter.check_accumulation (self, w) = Returned tt (self', w') /\
    Dosimeter.get_all_counts (self, w) = Returned (Dosimeter.counts self') (self', w') /\
    Forall (fun t => ~ (Dosimeter.accum_time self < now - t)) (Dosimeter.counts self') /\
    Forall (fun t => now - t < Dosimeter.accum_time self) (Dosimeter.counts self') /\
    Dosimeter.counts self = removed ++ Dosimeter.counts self' /\
    Forall (fun t => Dosimeter.accum_time self <= now - t) removed /\
    self' = Dosimeter.set_counts (Dosimeter.counts self') self.
Proof.
  intros Hnow Hsorted.
  destruct (check_accumulation_sorted_frozen self w now Hnow Hsorted)
    as (removed & kept & w' & Hrun & Hsplit & Hfresh & Hstale).
  exists removed, (Dosimeter.set_counts kept self), w'.
  split; [exact Hrun |].
  split; [rewrite get_all_counts_unfold, Hrun; reflexivity |].
  cbn [Dosimeter.set_counts Dosimeter.counts].
  split; [eapply Forall_impl; [exact Hfresh |]; simpl; intros t Ht; lia |].
  split; [exact Hfresh |]. split; [exact Hsplit |]. split; [exact Hstale | reflexivity].
Qed.

Lemma get_all_counts_trims_first_witness :
  exists (removed : list Z) (self' : Dosimeter.t) (w' : World),
    Dosimeter.check_accumulation
      (Dosimeter.mk None [0; 35000000] 30000000,
       boot_world (fun _ => 36000000) (fun _ => 0)) = Returned tt (self', w') /\
    Dosimeter.get_all_counts
      (Dosimeter.mk None [0; 35000000] 30000000,
       boot_world (fun _ => 36000000) (fun _ => 0)) =
      Returned (Dosimeter.counts self') (self', w') /\
    Forall (fun t => ~ (30000000 < 36000000 - t)) (Dosimeter.counts self') /\
    Forall (fun t => 36000000 - t < 30000000) (Dosimeter.counts self') /\
    [0; 35000000] = removed ++ Dosimeter.counts self' /\
    Forall (fun t => 30000000 <= 36000000 - t) removed /\
    self' = Dosimeter.mk None (Dosimeter.counts self') 30000000.
Proof.
  apply (get_all_counts_trims_first
           (Dosimeter.mk None [0; 35000000] 30000000)
           (boot_world (fun _ => 36000000) (fun _ => 0)) 36000000).
  - intros k. reflexivity.
  - simpl. repeat constructor. lia.
Defined.

(** C9 as the specification words it, for any window, fails on a window out
    of arrival order.  With a retention of 3600 s, two pulses are counted
    while the clock steps back from 7199 s to 3601 s, which leaves the
    window [7199 s; 3601 s]; [get_all_counts] at 7202 s finds the head
    younger than the retention, stops there, and returns both events, the
    second of which is 3601 s old. *)
Lemma get_all_counts_returns_stale_behind_fresh_head :
  let clock := fun k : nat =>
                 if (k <? 2)%nat then 7199000000
                 else if (k <? 4)%nat then 3601000000
                 else 7202000000 in
  let s0 := (Dosimeter.mk None [] (timedelta_seconds 3600),
             boot_world clock (fun _ => 0)) in
  let s2 := Dosimeter_run [call_count; call_count] s0 in
  Dosimeter.counts (fst s2) = [7199000000; 3601000000] /\
  clock (ticks (snd s2)) = 7202000000 /\
  Dosimeter.get_all_counts s2 =
    Returned [7199000000; 3601000000] (fst s2, advance 1 (snd s2)) /\
  In 3601000000 [7199000000; 3601000000] /\
  Dosimeter.accum_time (fst s2) < 7202000000 - 3601000000.
Proof.
  cbv zeta.
  split; [reflexivity |]. split; [reflexivity |]. split; [reflexivity |].
  split; [right; left; reflexivity |].
  unfold timedelta_seconds. simpl. lia.
Qed.

(** The end-to-end scenario: retention 30 s, events at 0 s and 35 s,
    sampled at 36 s: only the event at 35 s is returned. *)
Example get_all_counts_scenario :
  exists w' : World,
    Dosimeter.get_all_counts
      (Dosimeter.mk None [0; 35000000] (timedelta_seconds 30),
       boot_world (fun _ => 36000000) (fun _ => 0)) =
    Returned [35000000] (Dosimeter.mk None [35000000] (timedelta_seconds 30), w').
Proof. eexists. reflexivity. Qed.

(** ** The interrupt callback *)

Lemma count_without_LED (self : Dosimeter.t) (w : World) :
  Dosimeter.LED self = None ->
  Dosimeter.count (self, w) = Returned tt (counted self w).
Proof.
  intros HLED.
  unfold Dosimeter.count, counted, bind, world, zoom, this, set_this, now_float,
    datetime_now, print, ret. simpl. rewrite HLED. reflexivity.
Qed.

Lemma count_with_live_LED (self : Dosimeter.t) (w : World) (led : LED.t) :
  Dosimeter.LED self = Some led ->
  pin_live w (LED.pin led) ->
  exists w' : World,
    Dosimeter.count (self, w) = Returned tt (fst (counted self w), w') /\
    trace w' = trace (snd (counted self w)) ++
               [Wrote (LED.pin led) true; Slept (5 # 1000); Wrote (LED.pin led) false] /\
    pin_level w' (LED.pin led) = Some false.
Proof.
  intros HLED Hlive. unfold pin_live in Hlive.
  unfold Dosimeter.count, counted, bind, world, zoom, this, set_this, now_float,
    datetime_now, print, ret, Dosimeter.on_LED, LED.flash, LED.on, LED.off,
    GPIO.output, bind, world, zoom, this, sleep, pin_level. simpl.
  rewrite HLED. simpl. rewrite Hlive. simpl. rewrite Hlive. simpl.
  eexists. split.
  - destruct self as [l cs a]; simpl in *; subst l. reflexivity.
  - simpl. rewrite Hlive. rewrite <- !app_assoc. simpl.
    split; [reflexivity |]. apply lookup_insert_eq.
Qed.

Lemma count_fault_propagates_aux (self : Dosimeter.t) (w : World) (led : LED.t) :
  Dosimeter.LED self = Some led ->
  ~ pin_live w (LED.pin led) ->
  Dosimeter.count (self, w) = Raised RuntimeError (counted self w).
Proof.
  intros HLED Hdead. unfold pin_live in Hdead.
  unfold Dosimeter.count, counted, bind, world, zoom, this, set_this, now_float,
    datetime_now, print, ret, Dosimeter.on_LED, LED.flash, LED.on,
    GPIO.output, bind, world, zoom, this. simpl.
  rewrite HLED. simpl.
  destruct self as [l cs a]; simpl in *; subst l.
  destruct (channels (gpio w) !! LED.pin led) as [[|]|]; try reflexivity.
  contradiction.
Qed.

(** C2, as the code has it: [count] has no handler.  When the Dosimeter holds
    an LED whose pin is not a live output (the handle was torn down), the
    RuntimeError of the flash leaves [count] uncaught, after the time stamp
    was appended to the window and the count was printed; nothing is logged
    about the fault and the event is not dropped. *)
Theorem count_fault_propagates (self : Dosimeter.t) (w : World) (led : LED.t) :
  Dosimeter.LED self = Some led ->
  ~ pin_live w (LED.pin led) ->
  Dosimeter.count (self, w) = Raised RuntimeError (counted self w).
Proof.
  intros HLED Hdead. apply (count_fault_propagates_aux self w led HLED Hdead).
Qed.

(** In the embedding this is the only way [count] can raise. *)
Lemma count_raises_only_from_flash (self : Dosimeter.t) (w : World) (e : exn)
    (s : Dosimeter.t * World) :
  Dosimeter.count (self, w) = Raised e s ->
  e = RuntimeError /\
  s = counted self w /\
  exists led : LED.t, Dosimeter.LED self = Some led /\ ~ pin_live w (LED.pin led).
Proof.
  intros Hraise.
  destruct (Dosimeter.LED self) as [led |] eqn:HLED.
  - destruct (channels (gpio w) !! LED.pin led) as [[|] |] eqn:Hch.
    + assert (Hdead : ~ pin_live w (LED.pin led)) by (unfold pin_live; congruence).
      rewrite (count_fault_propagates_aux self w led HLED Hdead) in Hraise.
      inversion Hraise; subst. repeat split. exists led. split; [reflexivity | exact Hdead].
    + destruct (count_with_live_LED self w led HLED Hch) as (w' & Hret & _).
      rewrite Hret in Hraise. discriminate.
    + assert (Hdead : ~ pin_live w (LED.pin led)) by (unfold pin_live; congruence).
      rewrite (count_fault_propagates_aux self w led HLED Hdead) in Hraise.
      inversion Hraise; subst. repeat split. exists led. split; [reflexivity | exact Hdead].
  - rewrite (count_without_LED self w HLED) in Hraise. discriminate.
Qed.

Lemma count_fault_propagates_witness :
  Dosimeter.count
    (Dosimeter.mk (Some (LED.mk COUNTS_LED_PIN None)) [] 3600000000,
     boot_world (fun k => Z.of_nat k) (fun _ => 0)) =
  Raised RuntimeError
    (counted (Dosimeter.mk (Some (LED.mk COUNTS_LED_PIN None)) [] 3600000000)
             (boot_world (fun k => Z.of_nat k) (fun _ => 0))).
Proof.
  apply (count_fault_propagates
           (Dosimeter.mk (Some (LED.mk COUNTS_LED_PIN None)) [] 3600000000)
           (boot_world (fun k => Z.of_nat k) (fun _ => 0))
           (LED.mk COUNTS_LED_PIN None)).
  - reflexivity.
  - unfold pin_live. simpl. rewrite lookup_empty. discriminate.
Defined.

(** C2 as the specification words it fails: after [GPIO.cleanup()] a pulse
    makes [count] raise RuntimeError to its caller; the event is in the
    window all the same, and the trace holds the count message only. *)
Lemma count_raises_after_cleanup :
  let self := Dosimeter.mk (Some (LED.mk COUNTS_LED_PIN None)) [] (timedelta_seconds 3600) in
  let w := boot_world (fun k => 1000000 * Z.of_nat k) (fun _ => 0) in
  raises (Dosimeter.count (self, w)) RuntimeError /\
  ~ returns (Dosimeter.count (self, w)) /\
  Dosimeter.counts (fst (final_state (Dosimeter.count (self, w)))) = [1000000] /\
  trace (snd (final_state (Dosimeter.count (self, w)))) = [Printed (msg_count_at 0)].
Proof.
  cbv zeta. repeat split.
  intros H. exact H.
Qed.

(** ** The timer loop *)

Lemma start_loop_running (n : nat) (self : DosimeterTimer.t) (w : World) :
  DosimeterTimer.running self = true ->
  DosimeterTimer.start_loop n (self, w) =
  Returned tt (self, Nat.iter n (emit (Slept 10)) w).
Proof.
  intros Hrun. revert w. induction n as [| n IH]; intros w.
  - reflexivity.
  - cbn [DosimeterTimer.start_loop]. unfold bind at 1. unfold this at 1.
    cbn [fst]. rewrite Hrun.
    unfold bind at 1. unfold world, zoom, sleep. cbn [fst snd].
    rewrite IH. rewrite (Nat.iter_succ_r n (emit (Slept 10)) w). reflexivity.
Qed.

Lemma trace_iter_emit (n : nat) (e : effect) (w : World) :
  trace (Nat.iter n (emit e) w) = trace w ++ repeat e n /\
  gpio (Nat.iter n (emit e) w) = gpio w /\
  ticks (Nat.iter n (emit e) w) = ticks w /\
  procs (Nat.iter n (emit e) w) = procs w.
Proof.
  induction n as [| n IH]; simpl.
  - rewrite app_nil_r. repeat split.
  - destruct IH as (Ht & Hg & Hk & Hp). rewrite Ht, Hg, Hk, Hp.
    repeat split. rewrite <- app_assoc. f_equal.
    symmetry. apply (repeat_cons n e).
Qed.

(** C4, what the code does: [start] reads the clock once, sets [running],
    and each round of its loop sleeps 10 seconds, whatever [DT] is.  After
    [n] rounds the Dosimeter held by the timer is as it was (no trimming, no
    sampling of its window), the clock was read once only, and the trace
    has grown by [n] sleeps of 10 seconds: nothing was computed or handed to
    anyone. *)
Theorem start_only_sleeps (n : nat) (self : DosimeterTimer.t) (w : World) :
  exists w' : World,
    DosimeterTimer.start n (self, w) =
      Returned tt (DosimeterTimer.set_running true self, w') /\
    DosimeterTimer.dosimeter (DosimeterTimer.set_running true self) =
      DosimeterTimer.dosimeter self /\
    trace w' = trace w ++ repeat (Slept 10) n /\
    ticks w' = Datatypes.S (ticks w) /\
    gpio w' = gpio w /\
    procs w' = procs w.
Proof.
  exists (Nat.iter n (emit (Slept 10)) (advance 1 w)).
  split.
  - unfold DosimeterTimer.start, bind, world, zoom, this, set_this, datetime_now.
    simpl. rewrite start_loop_running; reflexivity.
  - destruct (trace_iter_emit n (Slept 10) (advance 1 w)) as (Ht & Hg & Hk & Hp).
    rewrite Ht, Hg, Hk, Hp. repeat split.
Qed.

(** ** The LED of auxiliaries.py *)

Lemma filter_all_false {A : Type} (f : A -> bool) (l : list A) :
  (forall x, In x l -> f x = false) -> List.filter f l = [].
Proof.
  induction l as [| a l IH]; intros H; simpl; [reflexivity |].
  rewrite (H a (or_introl eq_refl)). apply IH. intros x Hx. apply H. right. exact Hx.
Qed.

Lemma filter_seq_singleton (f : nat -> bool) (n p : nat) :
  (p < n)%nat ->
  f p = true ->
  (forall q, (q < n)%nat -> q <> p -> f q = false) ->
  List.filter f (seq 0 n) = [p].
Proof.
  intros Hp Hfp Hothers.
  replace n with (p + (1 + (n - Datatypes.S p)))%nat by lia.
  rewrite !seq_app, !List.filter_app. simpl. rewrite Hfp.
  rewrite !filter_all_false; [reflexivity | |].
  - intros q Hq. apply in_seq in Hq. apply Hothers; lia.
  - intros q Hq. apply in_seq in Hq. apply Hothers; lia.
Qed.

Lemma length_terminated (b : option nat) (ps : list proc) :
  length (terminated b ps) = length ps.
Proof. destruct b; simpl; [apply length_alter | reflexivity]. Qed.

Lemma blinks_on_terminated (led : auxiliaries.LED.t) (w : World) (q : nat) :
  owns_blinkers led w ->
  blinks_on (terminated (auxiliaries.LED.blinker led) (procs w))
            (auxiliaries.LED.pin led) q = false.
Proof.
  intros Hown. specialize (Hown q).
  destruct (auxiliaries.LED.blinker led) as [b |] eqn:Hb; simpl.
  - unfold blinks_on in *. destruct (decide (b = q)) as [-> | Hne].
    + rewrite list_lookup_alter_eq.
      destruct (procs w !! q) as [[t a] |]; simpl; [| reflexivity].
      destruct t; reflexivity.
    + rewrite list_lookup_alter_ne by exact Hne.
      destruct (procs w !! q) as [[[p i | h] [|]] |]; try reflexivity.
      destruct (Z.eqb p (auxiliaries.LED.pin led)); [| reflexivity].
      specialize (Hown eq_refl). congruence.
  - destruct (blinks_on (procs w) (auxiliaries.LED.pin led) q); [| reflexivity].
    specialize (Hown eq_refl). discriminate.
Qed.

Lemma spawned_lookup_new (t : target) (ps : list proc) :
  spawned t ps !! length ps = Some (mkProcess t true).
Proof.
  unfold spawned. rewrite list_lookup_alter_eq, list_lookup_middle by reflexivity.
  reflexivity.
Qed.

Lemma spawned_lookup_old (t : target) (ps : list proc) (q : nat) :
  q <> length ps ->
  spawned t ps !! q = if decide (q < length ps)%nat then ps !! q else None.
Proof.
  intros Hne. unfold spawned. rewrite list_lookup_alter_ne by congruence.
  destruct (decide (q < length ps)%nat) as [Hlt | Hge].
  - apply lookup_app_l. exact Hlt.
  - apply lookup_ge_None_2. rewrite length_app. simpl. lia.
Qed.

Lemma length_spawned (t : target) (ps : list proc) :
  length (spawned t ps) = Datatypes.S (length ps).
Proof. unfold spawned. rewrite length_alter, length_app. simpl. lia. Qed.

Lemma start_blink_unfold (interval : Q) (led : auxiliaries.LED.t) (w : World) :
  auxiliaries.LED.start_blink interval (led, w) =
  Returned tt
    (auxiliaries.LED.mk (auxiliaries.LED.pin led) (Some (length (procs w))),
     set_procs
       (spawned (do_blink_target (auxiliaries.LED.pin led) interval)
                (terminated (auxiliaries.LED.blinker led) (procs w)))
       w).
Proof.
  unfold auxiliaries.LED.start_blink, bind, this, world, zoom, set_this, ret,
    multiprocessing.Process, multiprocessing.start, multiprocessing.terminate,
    spawned, terminated.
  destruct led as [pin [b |]]; simpl.
  - rewrite length_alter. destruct w; reflexivity.
  - destruct w; reflexivity.
Qed.

(** After [start_blink] exactly one blink task runs on the pin: the new one,
    with the period asked for. *)
Lemma start_blink_spec (interval : Q) (led : auxiliaries.LED.t) (w : World) :
  owns_blinkers led w ->
  exists (led' : auxiliaries.LED.t) (w' : World),
    auxiliaries.LED.start_blink interval (led, w) = Returned tt (led', w') /\
    auxiliaries.LED.pin led' = auxiliaries.LED.pin led /\
    auxiliaries.LED.blinker led' = Some (length (procs w)) /\
    active_blinkers w' (auxiliaries.LED.pin led) = [length (procs w)] /\
    procs w' !! length (procs w) =
      Some (mkProcess (do_blink_target (auxiliaries.LED.pin led) interval) true) /\
    gpio w' = gpio w /\
    length (procs w') = Datatypes.S (length (procs w)) /\
    owns_blinkers led' w'.
Proof.
  intros Hown.
  set (ps := terminated (auxiliaries.LED.blinker led) (procs w)).
  set (t := do_blink_target (auxiliaries.LED.pin led) interval).
  assert (Hlen : length ps = length (procs w)) by apply length_terminated.
  assert (Hnew : blinks_on (spawned t ps) (auxiliaries.LED.pin led) (length (procs w)) = true).
  { unfold blinks_on. rewrite <- Hlen, spawned_lookup_new. simpl. apply Z.eqb_refl. }
  assert (Hold : forall q, q <> length (procs w) ->
                   blinks_on (spawned t ps) (auxiliaries.LED.pin led) q = false).
  { intros q Hq. unfold blinks_on. rewrite spawned_lookup_old by lia.
    destruct (decide (q < length ps)%nat); [| reflexivity].
    apply (blinks_on_terminated led w q Hown). }
  exists (auxiliaries.LED.mk (auxiliaries.LED.pin led) (Some (length (procs w)))),
    (set_procs (spawned t ps) w).
  split; [apply start_blink_unfold |].
  split; [reflexivity |]. split; [reflexivity |].
  split.
  { unfold active_blinkers. simpl. rewrite length_spawned, Hlen.
    apply filter_seq_singleton; [lia | exact Hnew |].
    intros q _ Hq. apply Hold. exact Hq. }
  split; [simpl; rewrite <- Hlen; apply spawned_lookup_new |].
  split; [reflexivity |].
  split; [simpl; rewrite length_spawned, Hlen; reflexivity |].
  intros q Hq. simpl in *.
  destruct (decide (q = length (procs w))) as [-> | Hne]; [reflexivity |].
  rewrite (Hold q Hne) in Hq. discriminate.
Qed.

Lemma output_live (pin : Z) (level : bool) (w : World) :
  pin_live w pin -> GPIO.output pin level w = Returned tt (driven pin level w).
Proof. unfold pin_live, GPIO.output, driven. intros ->. reflexivity. Qed.

Lemma output_dead (pin : Z) (level : bool) (w : World) :
  ~ pin_live w pin -> GPIO.output pin level w = Raised RuntimeError w.
Proof.
  unfold pin_live, GPIO.output. intros H.
  destruct (channels (gpio w) !! pin) as [[|]|]; try reflexivity. contradiction.
Qed.

Lemma driven_level (pin : Z) (level : bool) (w : World) :
  pin_live w pin -> pin_level (driven pin level w) pin = Some level.
Proof.
  unfold pin_live, pin_level, driven. simpl. intros ->. apply lookup_insert_eq.
Qed.

Lemma aux_on_live (led : auxiliaries.LED.t) (w : World) :
  pin_live w (auxiliaries.LED.pin led) ->
  auxiliaries.LED.on (led, w) =
  Returned tt (led, driven (auxiliaries.LED.pin led) true w).
Proof.
  intros H. unfold auxiliaries.LED.on, bind, this, world, zoom. simpl.
  rewrite (output_live _ _ _ H). reflexivity.
Qed.

Lemma aux_on_dead (led : auxiliaries.LED.t) (w : World) :
  ~ pin_live w (auxiliaries.LED.pin led) ->
  auxiliaries.LED.on (led, w) = Raised RuntimeError (led, w).
Proof.
  intros H. unfold auxiliaries.LED.on, bind, this, world, zoom. simpl.
  rewrite (output_dead _ _ _ H). reflexivity.
Qed.

Lemma aux_off_live (led : auxiliaries.LED.t) (w : World) :
  pin_live w (auxiliaries.LED.pin led) ->
  auxiliaries.LED.off (led, w) =
  Returned tt (led, driven (auxiliaries.LED.pin led) false w).
Proof.
  intros H.
  unfold auxiliaries.LED.off, bind, this, try_except_RuntimeError, world, zoom. simpl.
  rewrite (output_live _ _ _ H). reflexivity.
Qed.

Lemma aux_off_dead (led : auxiliaries.LED.t) (w : World) :
  ~ pin_live w (auxiliaries.LED.pin led) ->
  auxiliaries.LED.off (led, w) = Returned tt (led, w).
Proof.
  intros H.
  unfold auxiliaries.LED.off, bind, this, try_except_RuntimeError, world, zoom, ret. simpl.
  rewrite (output_dead _ _ _ H). reflexivity.
Qed.

Lemma stop_blink_unfold (led : auxiliaries.LED.t) (w : World) :
  auxiliaries.LED.stop_blink (led, w) =
  auxiliaries.LED.off
    (led, set_procs (terminated (auxiliaries.LED.blinker led) (procs w)) w).
Proof.
  unfold auxiliaries.LED.stop_blink, bind at 1 2. unfold this at 1.
  unfold terminated, world, zoom, multiprocessing.terminate, ret.
  destruct led as [pin [b |]]; simpl; [reflexivity |].
  destruct w; reflexivity.
Qed.

Lemma terminated_idle (led : auxiliaries.LED.t) (w : World) :
  blinker_idle led w ->
  terminated (auxiliaries.LED.blinker led) (procs w) = procs w.
Proof.
  unfold blinker_idle, terminated.
  destruct (auxiliaries.LED.blinker led) as [b |]; [| reflexivity].
  intros Hidle. apply list_eq. intros i.
  destruct (decide (b = i)) as [-> | Hne].
  - rewrite list_lookup_alter_eq.
    destruct (procs w !! i) as [[t a] |]; simpl in *; [| reflexivity].
    subst a. reflexivity.
  - apply list_lookup_alter_ne. exact Hne.
Qed.

(** [stop_blink] on a live pin: the task named by [blinker] is terminated,
    then the pin is driven low. *)
Lemma stop_blink_spec (led : auxiliaries.LED.t) (w : World) :
  owns_blinkers led w ->
  pin_live w (auxiliaries.LED.pin led) ->
  exists w' : World,
    auxiliaries.LED.stop_blink (led, w) = Returned tt (led, w') /\
    active_blinkers w' (auxiliaries.LED.pin led) = [] /\
    pin_level w' (auxiliaries.LED.pin led) = Some false.
Proof.
  intros Hown Hlive.
  set (w1 := set_procs (terminated (auxiliaries.LED.blinker led) (procs w)) w).
  assert (Hlive1 : pin_live w1 (auxiliaries.LED.pin led)) by exact Hlive.
  exists (driven (auxiliaries.LED.pin led) false w1).
  split; [rewrite stop_blink_unfold; apply (aux_off_live led w1 Hlive1) |].
  split; [| apply driven_level; exact Hlive1].
  unfold active_blinkers. simpl. apply filter_all_false.
  intros q _. apply blinks_on_terminated. exact Hown.
Qed.

Lemma stop_blink_idle (led : auxiliaries.LED.t) (w : World) :
  blinker_idle led w ->
  exists w' : World,
    auxiliaries.LED.stop_blink (led, w) = Returned tt (led, w') /\
    procs w' = procs w /\
    (pin_live w (auxiliaries.LED.pin led) ->
     pin_level w' (auxiliaries.LED.pin led) = Some false).
Proof.
  intros Hidle.
  rewrite stop_blink_unfold, (terminated_idle led w Hidle).
  replace (set_procs (procs w) w) with w by (destruct w; reflexivity).
  destruct (channels (gpio w) !! auxiliaries.LED.pin led) as [[|] |] eqn:Hch.
  - exists w. rewrite aux_off_dead by (unfold pin_live; congruence).
    repeat split. unfold pin_live. congruence.
  - exists (driven (auxiliaries.LED.pin led) false w).
    rewrite aux_off_live by exact Hch.
    repeat split. intros _. apply driven_level. exact Hch.
  - exists w. rewrite aux_off_dead by (unfold pin_live; congruence).
    repeat split. unfold pin_live. congruence.
Qed.

(** C6: on an LED whose pin is live and whose blink tasks are its own, two
    [start_blink] in a row leave one running blink task on the pin, the
    second one, with the second period, the first one being in the table
    and terminated; [stop_blink] then terminates it too and drives the pin
    low; and [stop_blink] on any LED without a running task returns, changes
    no process and leaves the pin, when live, low. *)
Theorem blink_supersession (led : auxiliaries.LED.t) (w : World) (i1 i2 : Q) :
  owns_blinkers led w ->
  pin_live w (auxiliaries.LED.pin led) ->
  exists (led2 : auxiliaries.LED.t) (w2 w3 : World) (p1 p2 : nat),
    (auxiliaries.LED.start_blink i1;; auxiliaries.LED.start_blink i2) (led, w) =
      Returned tt (led2, w2) /\
    active_blinkers w2 (auxiliaries.LED.pin led) = [p2] /\
    auxiliaries.LED.blinker led2 = Some p2 /\
    procs w2 !! p2 =
      Some (mkProcess (do_blink_target (auxiliaries.LED.pin led) i2) true) /\
    procs w2 !! p1 =
      Some (mkProcess (do_blink_target (auxiliaries.LED.pin led) i1) false) /\
    p1 <> p2 /\
    auxiliaries.LED.stop_blink (led2, w2) = Returned tt (led2, w3) /\
    active_blinkers w3 (auxiliaries.LED.pin led) = [] /\
    pin_level w3 (auxiliaries.LED.pin led) = Some false /\
    (forall (led0 : auxiliaries.LED.t) (w0 : World),
        blinker_idle led0 w0 ->
        exists w0' : World,
          auxiliaries.LED.stop_blink (led0, w0) = Returned tt (led0, w0') /\
          procs w0' = procs w0 /\
          (pin_live w0 (auxiliaries.LED.pin led0) ->
           pin_level w0' (auxiliaries.LED.pin led0) = Some false)).
Proof.
  intros Hown Hlive.
  destruct (start_blink_spec i1 led w Hown)
    as (led1 & w1 & Hrun1 & Hpin1 & Hb1 & _ & Hnew1 & Hgpio1 & Hlen1 & Hown1).
  destruct (start_blink_spec i2 led1 w1 Hown1)
    as (led2 & w2 & Hrun2 & Hpin2 & Hb2 & Hact2 & Hnew2 & Hgpio2 & Hlen2 & Hown2).
  assert (Hlive2 : pin_live w2 (auxiliaries.LED.pin led2)).
  { unfold pin_live. rewrite Hgpio2, Hgpio1, Hpin2, Hpin1. exact Hlive. }
  destruct (stop_blink_spec led2 w2 Hown2 Hlive2) as (w3 & Hstop & Hact3 & Hlvl3).
  rewrite Hpin1 in *. rewrite Hpin2 in *.
  exists led2, w2, w3, (length (procs w)), (length (procs w1)).
  split; [unfold bind; rewrite Hrun1; exact Hrun2 |].
  split; [exact Hact2 |]. split; [exact Hb2 |]. split; [exact Hnew2 |].
  split.
  { rewrite start_blink_unfold in Hrun2. inversion Hrun2 as [[Hled2 Hw2]].
    simpl. rewrite Hb1. simpl.
    rewrite spawned_lookup_old by (rewrite length_alter; lia).
    rewrite length_alter.
    destruct (decide (length (procs w) < length (procs w1))%nat) as [_ | Hge]; [| lia].
    rewrite list_lookup_alter_eq, Hnew1. reflexivity. }
  split; [lia |].
  split; [exact Hstop |]. split; [exact Hact3 |]. split; [exact Hlvl3 |].
  intros led0 w0. apply stop_blink_idle.
Qed.

Lemma blink_supersession_witness :
  let led := auxiliaries.LED.mk 20 None in
  let w := world_with_output 20 (fun _ => 0) (fun _ => 0) in
  exists (led2 : auxiliaries.LED.t) (w2 w3 : World) (p1 p2 : nat),
    (auxiliaries.LED.start_blink 1;; auxiliaries.LED.start_blink (15 # 10)) (led, w) =
      Returned tt (led2, w2) /\
    active_blinkers w2 (auxiliaries.LED.pin led) = [p2] /\
    auxiliaries.LED.blinker led2 = Some p2 /\
    procs w2 !! p2 =
      Some (mkProcess (do_blink_target (auxiliaries.LED.pin led) (15 # 10)) true) /\
    procs w2 !! p1 =
      Some (mkProcess (do_blink_target (auxiliaries.LED.pin led) 1) false) /\
    p1 <> p2 /\
    auxiliaries.LED.stop_blink (led2, w2) = Returned tt (led2, w3) /\
    active_blinkers w3 (auxiliaries.LED.pin led) = [] /\
    pin_level w3 (auxiliaries.LED.pin led) = Some false /\
    (forall (led0 : auxiliaries.LED.t) (w0 : World),
        blinker_idle led0 w0 ->
        exists w0' : World,
          auxiliaries.LED.stop_blink (led0, w0) = Returned tt (led0, w0') /\
          procs w0' = procs w0 /\
          (pin_live w0 (auxiliaries.LED.pin led0) ->
           pin_level w0' (auxiliaries.LED.pin led0) = Some false)).
Proof.
  cbv zeta.
  apply (blink_supersession (auxiliaries.LED.mk 20 None)
           (world_with_output 20 (fun _ => 0) (fun _ => 0)) 1 (15 # 10)).
  - intros pid H. unfold blinks_on in H. simpl in H.
    destruct pid; discriminate.
  - reflexivity.
Defined.

(** C3, as the code has it: [on] and [off] are plain writes.  On a live pin
    each returns with the pin at the level asked for, and neither touches
    the [blinker] field or any process: the blink tasks running on the pin
    before the call are running after it.  Cancelling a blink task is what
    [stop_blink] and [start_blink] do. *)
Theorem on_off_leave_blink_task (led : auxiliaries.LED.t) (w : World) :
  pin_live w (auxiliaries.LED.pin led) ->
  exists w_on w_off : World,
    auxiliaries.LED.on (led, w) = Returned tt (led, w_on) /\
    pin_level w_on (auxiliaries.LED.pin led) = Some true /\
    procs w_on = procs w /\
    active_blinkers w_on (auxiliaries.LED.pin led) =
      active_blinkers w (auxiliaries.LED.pin led) /\
    auxiliaries.LED.off (led, w) = Returned tt (led, w_off) /\
    pin_level w_off (auxiliaries.LED.pin led) = Some false /\
    procs w_off = procs w /\
    active_blinkers w_off (auxiliaries.LED.pin led) =
      active_blinkers w (auxiliaries.LED.pin led).
Proof.
  intros Hlive.
  exists (driven (auxiliaries.LED.pin led) true w),
    (driven (auxiliaries.LED.pin led) false w).
  split; [apply aux_on_live; exact Hlive |].
  split; [apply driven_level; exact Hlive |].
  split; [reflexivity |]. split; [reflexivity |].
  split; [apply aux_off_live; exact Hlive |].
  split; [apply driven_level; exact Hlive |].
  split; reflexivity.
Qed.

Lemma on_off_leave_blink_task_witness :
  let led := auxiliaries.LED.mk 20 (Some 0%nat) in
  let w := set_procs [mkProcess (do_blink_target 20 (15 # 10)) true]
             (world_with_output 20 (fun _ => 0) (fun _ => 0)) in
  exists w_on w_off : World,
    auxiliaries.LED.on (led, w) = Returned tt (led, w_on) /\
    pin_level w_on 20 = Some true /\
    procs w_on = procs w /\
    active_blinkers w_on 20 = active_blinkers w 20 /\
    auxiliaries.LED.off (led, w) = Returned tt (led, w_off) /\
    pin_level w_off 20 = Some false /\
    procs w_off = procs w /\
    active_blinkers w_off 20 = active_blinkers w 20.
Proof.
  cbv zeta.
  apply (on_off_leave_blink_task (auxiliaries.LED.mk 20 (Some 0%nat))
           (set_procs [mkProcess (do_blink_target 20 (15 # 10)) true]
              (world_with_output 20 (fun _ => 0) (fun _ => 0)))).
  reflexivity.
Defined.

(** C3 as the specification words it fails: an LED on pin 20 is set
    blinking, then [on] (or [off]) is called; the call returns and the blink
    task is still running on the pin, still named by [blinker]. *)
Lemma on_off_keep_blinker_running :
  let s0 := (auxiliaries.LED.mk 20 None,
             world_with_output 20 (fun _ => 0) (fun _ => 0)) in
  let s1 := final_state (auxiliaries.LED.start_blink (15 # 10) s0) in
  let s_on := final_state (auxiliaries.LED.on s1) in
  let s_off := final_state (auxiliaries.LED.off s1) in
  active_blinkers (snd s1) 20 = [0%nat] /\
  returns (auxiliaries.LED.on s1) /\
  active_blinkers (snd s_on) 20 = [0%nat] /\
  auxiliaries.LED.blinker (fst s_on) = Some 0%nat /\
  returns (auxiliaries.LED.off s1) /\
  active_blinkers (snd s_off) 20 = [0%nat] /\
  auxiliaries.LED.blinker (fst s_off) = Some 0%nat.
Proof.
  cbv zeta. repeat split.
Qed.

(** C8, as the code has it: the handler is in [off] of auxiliaries.py.  On a
    pin that is not a live output (the handle was torn down) [off] returns
    and leaves the LED and the world as they were. *)
Theorem off_after_teardown_is_noop (led : auxiliaries.LED.t) (w : World) :
  ~ pin_live w (auxiliaries.LED.pin led) ->
  auxiliaries.LED.off (led, w) = Returned tt (led, w).
Proof.
  intros Hdead. apply aux_off_dead. exact Hdead.
Qed.

Lemma off_after_teardown_is_noop_witness :
  auxiliaries.LED.off
    (auxiliaries.LED.mk 20 None,
     final_state (GPIO.cleanup (world_with_output 20 (fun _ => 0) (fun _ => 0)))) =
  Returned tt
    (auxiliaries.LED.mk 20 None,
     final_state (GPIO.cleanup (world_with_output 20 (fun _ => 0) (fun _ => 0)))).
Proof.
  apply (off_after_teardown_is_noop (auxiliaries.LED.mk 20 None)
           (final_state (GPIO.cleanup (world_with_output 20 (fun _ => 0) (fun _ => 0))))).
  unfold pin_live. simpl. rewrite lookup_empty. discriminate.
Defined.

(** C8 as the specification words it fails: after [GPIO.cleanup()], [on]
    raises RuntimeError, and so does [flash], which starts with [on]. *)
Lemma on_and_flash_raise_after_teardown :
  let led := auxiliaries.LED.mk 20 None in
  let w := final_state (GPIO.cleanup (world_with_output 20 (fun _ => 0) (fun _ => 0))) in
  raises (auxiliaries.LED.on (led, w)) RuntimeError /\
  raises (auxiliaries.LED.flash (led, w)) RuntimeError /\
  ~ returns (auxiliaries.LED.on (led, w)) /\
  ~ returns (auxiliaries.LED.flash (led, w)).
Proof.
  cbv zeta. repeat split; intros H; exact H.
Qed.

(** C10: [LED(pin)] of auxiliaries.py raises EnvironmentError where RPi.GPIO
    could not be imported; where it could, it returns an LED on [pin] with
    [blinker] at None and the pin set up as a live output; and it returns in
    no other way. *)
Theorem LED_init_needs_hardware (pin : Z) (w : World) :
  (RPI w = false ->
   auxiliaries.LED.__init__ pin w = Raised EnvironmentError w) /\
  (RPI w = true ->
   exists w' : World,
     auxiliaries.LED.__init__ pin w = Returned (auxiliaries.LED.mk pin None) w' /\
     pin_live w' pin) /\
  (forall (led : auxiliaries.LED.t) (w' : World),
      auxiliaries.LED.__init__ pin w = Returned led w' ->
      RPI w = true /\
      auxiliaries.LED.pin led = pin /\
      auxiliaries.LED.blinker led = None /\
      pin_live w' (auxiliaries.LED.pin led)).
Proof.
  unfold auxiliaries.LED.__init__, bind, ret, GPIO.setmode_BCM, GPIO.setup, pin_live.
  destruct (RPI w); simpl.
  - split; [discriminate |]. split.
    + intros _. eexists. split; [reflexivity |]. simpl. apply lookup_insert_eq.
    + intros led w' H. inversion H; subst. simpl.
      repeat split. apply lookup_insert_eq.
  - split; [reflexivity |]. split; [discriminate |].
    intros led w' H. discriminate.
Qed.

(** ** The network monitor *)

Import auxiliaries.

Lemma quiet_refl (w : World) : quiet w w.
Proof. repeat split. Qed.

Lemma quiet_trans (w1 w2 w3 : World) : quiet w1 w2 -> quiet w2 w3 -> quiet w1 w3.
Proof.
  intros (Hc & Hp & Hs & Ht) (Hc' & Hp' & Hs' & Ht').
  repeat split; congruence.
Qed.

Lemma quiet_driven (pin : Z) (level : bool) (w : World) : quiet w (driven pin level w).
Proof.
  repeat split. unfold probes_and_sleeps, driven. simpl.
  rewrite List.filter_app. simpl. apply app_nil_r.
Qed.

Lemma quiet_set_procs (ps : list proc) (w : World) : quiet w (set_procs ps w).
Proof. repeat split. Qed.

Lemma quiet_print (m : message) (w : World) : quiet w (emit (Printed m) w).
Proof.
  repeat split. unfold probes_and_sleeps. simpl.
  rewrite List.filter_app. simpl. apply app_nil_r.
Qed.

Lemma vprint_spec (level : Z) (m : message) (self : NetworkStatus.t) (w : World) :
  exists w' : World,
    NetworkStatus.vprint level m (self, w) = Returned tt (self, w') /\ quiet w w'.
Proof.
  unfold NetworkStatus.vprint, bind, this, world, zoom, print, ret. simpl.
  destruct (NetworkStatus.v self >=? level); simpl.
  - eexists. split; [reflexivity | apply quiet_print].
  - eexists. split; [reflexivity | apply quiet_refl].
Qed.

(** The LED part of [update] when the probe succeeded. *)
Lemma led_steady_on (l : LED.t) (w : World) :
  pin_live w (LED.pin l) ->
  exists w' : World,
    (do l' <- this;
     match LED.blinker l' with
     | Some _ => LED.stop_blink
     | None => ret tt
     end;;
     LED.on) (l, w) = Returned tt (l, w') /\
    quiet w w' /\
    pin_level w' (LED.pin l) = Some true.
Proof.
  intros Hlive. unfold bind at 1 2. unfold this at 1. cbn [fst].
  destruct (LED.blinker l) as [b |] eqn:Hb.
  - rewrite stop_blink_unfold.
    set (w1 := set_procs (terminated (LED.blinker l) (procs w)) w).
    assert (Hlive1 : pin_live w1 (LED.pin l)) by exact Hlive.
    rewrite (aux_off_live l w1 Hlive1).
    assert (Hlive2 : pin_live (driven (LED.pin l) false w1) (LED.pin l)) by exact Hlive.
    rewrite (aux_on_live l _ Hlive2).
    eexists. split; [reflexivity |]. split.
    + apply (quiet_trans w w1); [apply quiet_set_procs |].
      eapply quiet_trans; apply quiet_driven.
    + apply driven_level. exact Hlive2.
  - unfold ret. rewrite (aux_on_live l w Hlive).
    eexists. split; [reflexivity |]. split.
    + apply quiet_driven.
    + apply driven_level. exact Hlive.
Qed.

(** [update], split at the outcome of its probe. *)
Lemma update_unfold (self : NetworkStatus.t) (w : World) :
  NetworkStatus.update (self, w) =
  let r := ping_status w (pings w) in
  let w1 := final_state (os_system_ping (NetworkStatus.hostname self) w) in
  if r =? 0
  then
    (match NetworkStatus.led self with
     | Some l =>
         NetworkStatus.on_led l
           (do l' <- this;
            match LED.blinker l' with
            | Some _ => LED.stop_blink
            | None => ret tt
            end;;
            LED.on)
     | None => ret tt
     end;;
     NetworkStatus.vprint 2 (msg_is_up (NetworkStatus.hostname self)))
      (NetworkStatus.set_is_up true self, w1)
  else
    (match NetworkStatus.led self with
     | Some l => NetworkStatus.on_led l (LED.start_blink (NetworkStatus.blink_period_s self))
     | None => ret tt
     end;;
     NetworkStatus.vprint 1 (msg_is_down (NetworkStatus.hostname self)))
      (NetworkStatus.set_is_up false self, w1).
Proof.
  unfold NetworkStatus.update, NetworkStatus._ping.
  unfold bind at 1 2 3. unfold this at 1 2. unfold world at 1. unfold zoom at 1.
  unfold os_system_ping. cbn [fst snd final_state].
  destruct (ping_status w (pings w) =? 0).
  - unfold bind at 1. unfold set_this at 1. cbn [fst snd]. reflexivity.
  - unfold bind at 1. unfold set_this at 1. cbn [fst snd]. reflexivity.
Qed.

Lemma update_spec (self : NetworkStatus.t) (w : World) :
  led_ready self w ->
  exists (self' : NetworkStatus.t) (w' : World),
    NetworkStatus.update (self, w) = Returned tt (self', w') /\
    NetworkStatus.is_up self' = (ping_status w (pings w) =? 0) /\
    same_settings self self' /\
    led_ready self' w' /\
    pings w' = Datatypes.S (pings w) /\
    ping_status w' = ping_status w /\
    probes_and_sleeps (trace w') =
      probes_and_sleeps (trace w) ++ [Pinged (NetworkStatus.hostname self)].
Proof.
  intros Hready. rewrite update_unfold. cbv zeta.
  set (w1 := final_state (os_system_ping (NetworkStatus.hostname self) w)).
  assert (Hw1 : channels (gpio w1) = channels (gpio w) /\
                pings w1 = Datatypes.S (pings w) /\
                ping_status w1 = ping_status w /\
                probes_and_sleeps (trace w1) =
                  probes_and_sleeps (trace w) ++ [Pinged (NetworkStatus.hostname self)]).
  { repeat split. unfold probes_and_sleeps. simpl. rewrite List.filter_app. reflexivity. }
  destruct Hw1 as (Hc1 & Hp1 & Hs1 & Ht1).
  unfold led_ready in Hready.
  destruct (ping_status w (pings w) =? 0).
  - destruct (NetworkStatus.led self) as [l |] eqn:Hled.
    + assert (Hlive1 : pin_live w1 (LED.pin l)) by (unfold pin_live; rewrite Hc1; exact Hready).
      destruct (led_steady_on l w1 Hlive1) as (w2 & Hrun & Hq & _).
      unfold bind at 1. unfold NetworkStatus.on_led, zoom. cbn [fst snd].
      rewrite Hrun. cbn [fst snd].
      destruct (vprint_spec 2 (msg_is_up (NetworkStatus.hostname self))
                  (NetworkStatus.set_led (Some l) (NetworkStatus.set_is_up true self)) w2)
        as (w3 & Hpr & Hq3).
      rewrite Hpr. eexists _, w3. split; [reflexivity |].
      pose proof (quiet_trans _ _ _ Hq Hq3) as (Hc & Hp & Hs & Ht).
      split; [reflexivity |]. split; [repeat split |].
      split; [unfold led_ready, pin_live; simpl; rewrite Hc; exact Hlive1 |].
      repeat split; congruence.
    + unfold bind at 1. unfold ret at 1.
      destruct (vprint_spec 2 (msg_is_up (NetworkStatus.hostname self))
                  (NetworkStatus.set_is_up true self) w1) as (w3 & Hpr & Hq3).
      rewrite Hpr. eexists _, w3. split; [reflexivity |].
      destruct Hq3 as (Hc & Hp & Hs & Ht).
      split; [reflexivity |]. split; [repeat split |].
      split; [unfold led_ready; simpl; rewrite Hled; exact I |].
      repeat split; congruence.
  - destruct (NetworkStatus.led self) as [l |] eqn:Hled.
    + unfold bind at 1. unfold NetworkStatus.on_led, zoom. cbn [fst snd].
      rewrite start_blink_unfold. cbn [fst snd].
      set (w2 := set_procs _ w1).
      set (l2 := LED.mk (LED.pin l) (Some (length (procs w1)))).
      destruct (vprint_spec 1 (msg_is_down (NetworkStatus.hostname self))
                  (NetworkStatus.set_led (Some l2) (NetworkStatus.set_is_up false self)) w2)
        as (w3 & Hpr & Hq3).
      rewrite Hpr. eexists _, w3. split; [reflexivity |].
      pose proof (quiet_trans _ _ _ (quiet_set_procs _ w1 : quiet w1 w2) Hq3)
        as (Hc & Hp & Hs & Ht).
      split; [reflexivity |]. split; [repeat split |].
      split; [unfold led_ready, pin_live; simpl; rewrite Hc, Hc1; exact Hready |].
      repeat split; congruence.
    + unfold bind at 1. unfold ret at 1.
      destruct (vprint_spec 1 (msg_is_down (NetworkStatus.hostname self))
                  (NetworkStatus.set_is_up false self) w1) as (w3 & Hpr & Hq3).
      rewrite Hpr. eexists _, w3. split; [reflexivity |].
      destruct Hq3 as (Hc & Hp & Hs & Ht).
      split; [reflexivity |]. split; [repeat split |].
      split; [unfold led_ready; simpl; rewrite Hled; exact I |].
      repeat split; congruence.
Qed.

Lemma last_cons {A : Type} (a d : A) (l : list A) :
  List.last (a :: l) d = List.last l a.
Proof.
  revert a d. induction l as [| b l IH]; intros a d; [reflexivity |].
  change (List.last (b :: l) d = List.last (b :: l) a).
  rewrite (IH b d), (IH b a). reflexivity.
Qed.

Lemma next_statuses_S (w w2 : World) (n : nat) :
  pings w2 = Datatypes.S (pings w) ->
  ping_status w2 = ping_status w ->
  next_statuses w (Datatypes.S n) = ping_status w (pings w) :: next_statuses w2 n.
Proof.
  intros Hp Hs. unfold next_statuses.
  rewrite Hp, Hs. cbn [seq map]. f_equal.
  rewrite <- seq_shift, map_map.
  apply map_ext. intros k. f_equal. lia.
Qed.

Lemma schedule_same (self self' : NetworkStatus.t) (rs : list Z) :
  same_settings self self' -> schedule self' rs = schedule self rs.
Proof.
  intros (Hh & Hu & Hd & _). unfold schedule. rewrite Hh, Hu, Hd. reflexivity.
Qed.

Lemma same_settings_trans (s1 s2 s3 : NetworkStatus.t) :
  same_settings s1 s2 -> same_settings s2 s3 -> same_settings s1 s3.
Proof.
  intros (H1 & H2 & H3 & H4 & H5) (H1' & H2' & H3' & H4' & H5').
  repeat split; congruence.
Qed.

(** The monitor loop under any script of probe outcomes: [n] rounds return
    (given a live LED pin, if there is an LED), they make the next [n]
    probes, each followed by the sleep of the state that probe has set, and
    the state at the end is the one set by the last probe. *)
Lemma do_pings_spec (n : nat) :
  forall (self : NetworkStatus.t) (w : World),
    led_ready self w ->
    exists (self' : NetworkStatus.t) (w' : World),
      NetworkStatus._do_pings n (self, w) = Returned tt (self', w') /\
      same_settings self self' /\
      led_ready self' w' /\
      pings w' = (n + pings w)%nat /\
      ping_status w' = ping_status w /\
      probes_and_sleeps (trace w') =
        probes_and_sleeps (trace w) ++ schedule self (next_statuses w n) /\
      NetworkStatus.is_up self' =
        List.last (map (fun r => r =? 0) (next_statuses w n)) (NetworkStatus.is_up self).
Proof.
  induction n as [| n IH]; intros self w Hready.
  - exists self, w. split; [reflexivity |]. split; [repeat split |].
    split; [exact Hready |]. split; [reflexivity |]. split; [reflexivity |].
    split; [symmetry; apply app_nil_r | reflexivity].
  - destruct (update_spec self w Hready)
      as (self1 & w1 & Hupd & Hup1 & Hsame1 & Hready1 & Hp1 & Hs1 & Ht1).
    set (iv := if NetworkStatus.__bool__ self1
               then NetworkStatus.up_interval_s self1
               else NetworkStatus.down_interval_s self1).
    set (w2 := emit (Slept iv) w1).
    assert (Hready2 : led_ready self1 w2) by exact Hready1.
    destruct (IH self1 w2 Hready2)
      as (self' & w' & Hrun & Hsame & Hready' & Hp & Hs & Ht & Hup).
    exists self', w'.
    split.
    { cbn [NetworkStatus._do_pings]. unfold bind at 1. rewrite Hupd.
      unfold bind at 1. unfold this at 1. cbn [fst].
      unfold bind at 1. fold iv.
      replace ((if NetworkStatus.__bool__ self1
                then world (sleep (NetworkStatus.up_interval_s self1))
                else world (sleep (NetworkStatus.down_interval_s self1))) (self1, w1))
        with (Returned (S := NetworkStatus.t * World) tt (self1, w2))
        by (unfold iv, w2; destruct (NetworkStatus.__bool__ self1); reflexivity).
      exact Hrun. }
    split; [exact (same_settings_trans _ _ _ Hsame1 Hsame) |].
    split; [exact Hready' |].
    split; [rewrite Hp; simpl; rewrite Hp1; lia |].
    split; [rewrite Hs; exact Hs1 |].
    assert (Hnext : next_statuses w (Datatypes.S n) =
                    ping_status w (pings w) :: next_statuses w2 n).
    { apply next_statuses_S; [exact Hp1 | exact Hs1]. }
    split.
    + rewrite Ht, Hnext. simpl. unfold probes_and_sleeps in *.
      rewrite List.filter_app, Ht1. simpl. rewrite <- app_assoc. simpl.
      rewrite (schedule_same self self1 _ Hsame1).
      destruct Hsame1 as (_ & Hu & Hd & _).
      unfold iv, NetworkStatus.__bool__. rewrite Hup1, Hu, Hd.
      rewrite <- app_assoc. reflexivity.
    + rewrite Hup, Hnext. cbn [map]. rewrite last_cons, Hup1. reflexivity.
Qed.

(** C5: with probe outcomes fail, fail, success, fail (a probe fails when
    the exit status of [ping] is not 0), the states after the four rounds
    of the loop are Down, Down, Up, Down, and the probes and sleeps are, in
    order: probe, sleep [down_interval_s], probe, sleep [down_interval_s],
    probe, sleep [up_interval_s], probe, sleep [down_interval_s]; so the
    sleep before each probe after the first is that of the state the
    previous outcome has set. *)
Theorem liveness_script (self : NetworkStatus.t) (w : World) :
  NetworkStatus.is_up self = false ->
  led_ready self w ->
  ping_status w (0 + pings w)%nat <> 0 ->
  ping_status w (1 + pings w)%nat <> 0 ->
  ping_status w (2 + pings w)%nat = 0 ->
  ping_status w (3 + pings w)%nat <> 0 ->
  map (fun n => NetworkStatus.is_up (fst (final_state (NetworkStatus._do_pings n (self, w)))))
      [1; 2; 3; 4]%nat = [false; false; true; false] /\
  exists (self' : NetworkStatus.t) (w' : World),
    NetworkStatus._do_pings 4 (self, w) = Returned tt (self', w') /\
    probes_and_sleeps (trace w') =
      probes_and_sleeps (trace w) ++
      [Pinged (NetworkStatus.hostname self); Slept (NetworkStatus.down_interval_s self);
       Pinged (NetworkStatus.hostname self); Slept (NetworkStatus.down_interval_s self);
       Pinged (NetworkStatus.hostname self); Slept (NetworkStatus.up_interval_s self);
       Pinged (NetworkStatus.hostname self); Slept (NetworkStatus.down_interval_s self)].
Proof.
  intros _ Hready H0 H1 H2 H3.
  apply Z.eqb_neq in H0, H1, H3. apply Z.eqb_eq in H2.
  split.
  - cbn [map].
    destruct (do_pings_spec 1 self w Hready) as (s1 & w1 & -> & _ & _ & _ & _ & _ & E1).
    destruct (do_pings_spec 2 self w Hready) as (s2 & w2 & -> & _ & _ & _ & _ & _ & E2).
    destruct (do_pings_spec 3 self w Hready) as (s3 & w3 & -> & _ & _ & _ & _ & _ & E3).
    destruct (do_pings_spec 4 self w Hready) as (s4 & w4 & -> & _ & _ & _ & _ & _ & E4).
    cbn [final_state fst]. rewrite E1, E2, E3, E4.
    unfold next_statuses. cbn [seq map List.last].
    rewrite ?H0, ?H1, ?H2, ?H3. reflexivity.
  - destruct (do_pings_spec 4 self w Hready) as (s4 & w4 & Hrun & _ & _ & _ & _ & Ht & _).
    exists s4, w4. split; [exact Hrun |].
    rewrite Ht. unfold next_statuses, schedule. cbn [seq map flat_map app].
    rewrite H0, H1, H2, H3. reflexivity.
Qed.

Lemma liveness_script_witness :
  let self := NetworkStatus.mk "dosenet.dhcp.lbl.gov" 300 5 (Some (LED.mk 20 None))
                (15 # 10) 1 false (Some 0%nat) in
  let w := world_with_output 20 (fun _ => 0)
             (fun k => match k with 2%nat => 0 | _ => 256 end) in
  map (fun n => NetworkStatus.is_up (fst (final_state (NetworkStatus._do_pings n (self, w)))))
      [1; 2; 3; 4]%nat = [false; false; true; false] /\
  exists (self' : NetworkStatus.t) (w' : World),
    NetworkStatus._do_pings 4 (self, w) = Returned tt (self', w') /\
    probes_and_sleeps (trace w') =
      probes_and_sleeps (trace w) ++
      [Pinged "dosenet.dhcp.lbl.gov"; Slept 5;
       Pinged "dosenet.dhcp.lbl.gov"; Slept 5;
       Pinged "dosenet.dhcp.lbl.gov"; Slept 300;
       Pinged "dosenet.dhcp.lbl.gov"; Slept 5].
Proof.
  cbv zeta.
  apply (liveness_script
           (NetworkStatus.mk "dosenet.dhcp.lbl.gov" 300 5 (Some (LED.mk 20 None))
              (15 # 10) 1 false (Some 0%nat))
           (world_with_output 20 (fun _ => 0)
              (fun k => match k with 2%nat => 0 | _ => 256 end))).
  - reflexivity.
  - reflexivity.
  - simpl. lia.
  - simpl. lia.
  - reflexivity.
  - simpl. lia.
Defined.

(** The monitor as [NetworkStatus(...)] leaves it is Down. *)
Lemma NetworkStatus_init_down (hostname : string) (up down : Q)
    (network_led : option LED.t) (verbosity : Z) (w : World) :
  exists (self : NetworkStatus.t) (w' : World),
    NetworkStatus.__init__ hostname up down network_led verbosity w = Returned self w' /\
    NetworkStatus.is_up self = false /\
    NetworkStatus.__bool__ self = false /\
    gpio w' = gpio w.
Proof.
  eexists _, _. split; [reflexivity |]. repeat split.
Qed.

(** ** The window under a running clock *)

(** Under a clock that never goes back, a call of [check_accumulation] on a
    window in arrival order pops exactly the events whose age has reached
    the retention at the last reading the call makes. *)
Lemma check_accumulation_running_clock (self : Dosimeter.t) (w : World) :
  clock_monotone w ->
  Sorted Z.le (Dosimeter.counts self) ->
  exists (removed kept : list Z) (n : nat),
    Dosimeter.check_accumulation (self, w) =
      Returned tt (Dosimeter.set_counts kept self, advance n w) /\
    Dosimeter.counts self = removed ++ kept /\
    Forall (fun t => Dosimeter.accum_time self <= clock w (n + ticks w - 1) - t) removed /\
    Forall (fun t => clock w (n + ticks w - 1) - t < Dosimeter.accum_time self) kept.
Proof.
  intros Hmono Hsorted.
  destruct (check_accumulation_loop_spec (Dosimeter.accum_time self)
              (Dosimeter.counts self) w)
    as (removed & kept & n & Hrun & Hsplit & Hrem & Hkept).
  exists removed, kept, n.
  rewrite check_accumulation_unfold, Hrun.
  split; [reflexivity |]. split; [exact Hsplit |].
  assert (Hn : (length removed <= n)%nat) by (destruct kept; lia).
  split.
  - apply Forall_forall. intros t Hin.
    apply list_elem_of_lookup in Hin. destruct Hin as [i Hi].
    pose proof (lookup_lt_Some _ _ _ Hi) as Hlt.
    specialize (Hrem i t Hi).
    pose proof (Hmono (i + ticks w)%nat (n + ticks w - 1)%nat ltac:(lia)). lia.
  - destruct kept as [| c kept']; [constructor |].
    destruct Hkept as [-> Hc].
    replace (Datatypes.S (length removed) + ticks w - 1)%nat
      with (length removed + ticks w)%nat by lia.
    rewrite Hsplit in Hsorted. apply sorted_app_r in Hsorted.
    pose proof (sorted_head_bound c kept' _ Hsorted Hc) as Hall.
    eapply Forall_impl; [exact Hall |]. simpl. intros t Ht. lia.
Qed.

Lemma count_final_state (self : Dosimeter.t) (w : World) :
  Dosimeter.counts (fst (final_state (Dosimeter.count (self, w)))) =
    Dosimeter.counts self ++ [clock w (Datatypes.S (ticks w))] /\
  Dosimeter.accum_time (fst (final_state (Dosimeter.count (self, w)))) =
    Dosimeter.accum_time self /\
  ticks (snd (final_state (Dosimeter.count (self, w)))) = (2 + ticks w)%nat /\
  clock (snd (final_state (Dosimeter.count (self, w)))) = clock w.
Proof.
  unfold Dosimeter.count, bind, world, zoom, this, set_this, now_float,
    datetime_now, print, ret, Dosimeter.on_LED, dosimeter.LED.flash,
    dosimeter.LED.on, dosimeter.LED.off,
    GPIO.output, bind, world, zoom, this, sleep, time_float, EPOCH_START_TIME.
  simpl. rewrite Z.sub_0_r.
  destruct (Dosimeter.LED self) as [led |]; simpl; [| repeat split].
  destruct (channels (gpio w) !! dosimeter.LED.pin led) as [[|] |] eqn:Hch;
    simpl; rewrite ?Hch; simpl; rewrite ?Hch; simpl; repeat split.
Qed.

(** The window invariant is kept by the callback, whether it returns or
    raises, and by the trimming. *)
Lemma count_keeps_window_ok (self : Dosimeter.t) (w : World) :
  clock_monotone w ->
  window_ok self w ->
  window_ok (fst (final_state (Dosimeter.count (self, w))))
            (snd (final_state (Dosimeter.count (self, w)))).
Proof.
  intros Hmono [Hsorted Hbound].
  destruct (count_final_state self w) as (Hcs & _ & Hticks & Hclock).
  unfold window_ok. rewrite Hcs, Hticks, Hclock. split.
  - assert (Hnext : Forall (fun t => t <= clock w (Datatypes.S (ticks w)))
                      (Dosimeter.counts self)).
    { eapply Forall_impl; [exact Hbound |]. simpl. intros t Ht.
      pose proof (Hmono (ticks w) (Datatypes.S (ticks w)) ltac:(lia)). lia. }
    clear Hbound Hcs. induction (Dosimeter.counts self) as [| a l IH]; simpl.
    + repeat constructor.
    + inversion Hsorted as [| ? ? Hs Hhd]; subst.
      inversion Hnext as [| ? ? Ha Hl]; subst.
      constructor; [apply IH; assumption |].
      destruct l as [| b l]; simpl.
      * constructor. exact Ha.
      * constructor. inversion Hhd; assumption.
  - apply Forall_app. split.
    + eapply Forall_impl; [exact Hbound |]. simpl. intros t Ht.
      pose proof (Hmono (ticks w) (2 + ticks w)%nat ltac:(lia)) as Hle.
      cbn [Nat.add] in *. lia.
    + repeat constructor. apply Hmono. lia.
Qed.

Lemma check_accumulation_keeps_window_ok (self : Dosimeter.t) (w : World) :
  clock_monotone w ->
  window_ok self w ->
  window_ok (fst (final_state (Dosimeter.check_accumulation (self, w))))
            (snd (final_state (Dosimeter.check_accumulation (self, w)))).
Proof.
  intros Hmono [Hsorted Hbound].
  destruct (check_accumulation_loop_spec (Dosimeter.accum_time self)
              (Dosimeter.counts self) w)
    as (removed & kept & n & Hrun & Hsplit & _ & _).
  rewrite check_accumulation_unfold, Hrun. simpl.
  rewrite Hsplit in Hsorted, Hbound. split.
  - simpl. apply (sorted_app_r removed kept Hsorted).
  - simpl. apply Forall_app in Hbound. destruct Hbound as [_ Hk].
    eapply Forall_impl; [exact Hk |]. simpl. intros t Ht.
    pose proof (Hmono (ticks w) (n + ticks w)%nat ltac:(lia)). lia.
Qed.

(** ** The LED of dosimeter.py *)

(** The copy of the class in dosimeter.py has no handler in [off]: on a pin
    that is not a live output both writes raise. *)
Lemma dosimeter_LED_writes_raise (led : dosimeter.LED.t) (w : World) :
  ~ pin_live w (dosimeter.LED.pin led) ->
  dosimeter.LED.on (led, w) = Raised RuntimeError (led, w) /\
  dosimeter.LED.off (led, w) = Raised RuntimeError (led, w) /\
  dosimeter.LED.flash (led, w) = Raised RuntimeError (led, w).
Proof.
  intros Hdead.
  unfold dosimeter.LED.flash, dosimeter.LED.on, dosimeter.LED.off,
    bind, this, world, zoom. simpl.
  rewrite !(output_dead _ _ _ Hdead). repeat split.
Qed.

Lemma dosimeter_LED_on_off_leave_blink_task (led : dosimeter.LED.t) (w : World) :
  pin_live w (dosimeter.LED.pin led) ->
  dosimeter.LED.on (led, w) = Returned tt (led, driven (dosimeter.LED.pin led) true w) /\
  dosimeter.LED.off (led, w) = Returned tt (led, driven (dosimeter.LED.pin led) false w) /\
  procs (driven (dosimeter.LED.pin led) true w) = procs w /\
  procs (driven (dosimeter.LED.pin led) false w) = procs w.
Proof.
  intros Hlive.
  unfold dosimeter.LED.on, dosimeter.LED.off, bind, this, world, zoom. simpl.
  rewrite !(output_live _ _ _ Hlive). repeat split.
Qed.

(** A timer left running over a window that holds an event 400 s old, with
    a retention of 30 s: three rounds of [start] later the event is still
    in the window and the trace holds three sleeps of 10 s and nothing
    else. *)
Example start_leaves_stale_event :
  let led := dosimeter.LED.mk COUNTS_LED_PIN None in
  let d := Dosimeter.mk (Some led) [0] (timedelta_seconds 30) in
  let timer := DosimeterTimer.mk led led led d DosimeterTimer.default_time_interval_s false in
  let s := final_state
             (DosimeterTimer.start 3 (timer, boot_world (fun _ => 400000000) (fun _ => 0))) in
  Dosimeter.counts (DosimeterTimer.dosimeter (fst s)) = [0] /\
  trace (snd s) = [Slept 10; Slept 10; Slept 10] /\
  DosimeterTimer.DT (fst s) = 300%Q.
Proof. cbv zeta. repeat split. Qed.

(** * Further properties *)

(** ** The window, under any clock and any sequence of calls *)

(** X1: under a clock that never goes back, [check_accumulation] on a
    window in arrival order returns, pops a prefix, and splits the window at
    the last reading [r] of the clock it has made: every event popped has
    [accum_time <= r - t], every event left has [r - t < accum_time]. *)
Theorem trim_under_running_clock (self : Dosimeter.t) (w : World) :
  clock_monotone w ->
  Sorted Z.le (Dosimeter.counts self) ->
  exists (removed kept : list Z) (n : nat),
    Dosimeter.check_accumulation (self, w) =
      Returned tt (Dosimeter.set_counts kept self, advance n w) /\
    Dosimeter.counts self = removed ++ kept /\
    Forall (fun t => Dosimeter.accum_time self <= clock w (n + ticks w - 1) - t) removed /\
    Forall (fun t => clock w (n + ticks w - 1) - t < Dosimeter.accum_time self) kept.
Proof.
  intros Hmono Hsorted. apply check_accumulation_running_clock; assumption.
Qed.

Lemma trim_under_running_clock_witness :
  exists (removed kept : list Z) (n : nat),
    Dosimeter.check_accumulation
      (Dosimeter.mk None [0; 10; 25] 30, boot_world (fun k => 30 + 5 * Z.of_nat k) (fun _ => 0)) =
      Returned tt (Dosimeter.mk None kept 30,
                   advance n (boot_world (fun k => 30 + 5 * Z.of_nat k) (fun _ => 0))) /\
    [0; 10; 25] = removed ++ kept /\
    Forall (fun t => 30 <= 30 + 5 * Z.of_nat (n + 0 - 1) - t) removed /\
    Forall (fun t => 30 + 5 * Z.of_nat (n + 0 - 1) - t < 30) kept.
Proof.
  apply (trim_under_running_clock (Dosimeter.mk None [0; 10; 25] 30)
           (boot_world (fun k => 30 + 5 * Z.of_nat k) (fun _ => 0))).
  - intros i j Hij. simpl. lia.
  - simpl. repeat constructor; lia.
Defined.

(** X2: whatever the window and the clock, [check_accumulation] returns,
    what it leaves is a suffix of the window, it reads the clock at most
    once more than it pops, and every event it pops had reached the
    retention at one of the readings the call has made. *)
Theorem trim_pops_only_stale (self : Dosimeter.t) (w : World) :
  exists (removed kept : list Z) (n : nat),
    Dosimeter.check_accumulation (self, w) =
      Returned tt (Dosimeter.set_counts kept self, advance n w) /\
    Dosimeter.counts self = removed ++ kept /\
    (length removed <= n <= Datatypes.S (length removed))%nat /\
    Forall (fun t => exists k : nat,
                (ticks w <= k < n + ticks w)%nat /\
                Dosimeter.accum_time self <= clock w k - t)
           removed.
Proof.
  destruct (check_accumulation_loop_spec (Dosimeter.accum_time self)
              (Dosimeter.counts self) w)
    as (removed & kept & n & Hrun & Hsplit & Hrem & Hkept).
  exists removed, kept, n.
  rewrite check_accumulation_unfold, Hrun.
  assert (Hn : (length removed <= n <= Datatypes.S (length removed))%nat)
    by (destruct kept; lia).
  repeat split; try assumption; try lia.
  apply Forall_forall. intros t Hin.
  apply list_elem_of_lookup in Hin. destruct Hin as [i Hi].
  pose proof (lookup_lt_Some _ _ _ Hi) as Hlt.
  specialize (Hrem i t Hi).
  exists (i + ticks w)%nat. split; [lia | lia].
Qed.

Lemma Dosimeter_step_keeps (c : Dosimeter_call) (self : Dosimeter.t) (w : World) :
  clock_monotone w ->
  window_ok self w ->
  window_ok (fst (Dosimeter_step c (self, w))) (snd (Dosimeter_step c (self, w))) /\
  clock (snd (Dosimeter_step c (self, w))) = clock w /\
  Dosimeter.accum_time (fst (Dosimeter_step c (self, w))) = Dosimeter.accum_time self /\
  (length (Dosimeter.counts (fst (Dosimeter_step c (self, w)))) <=
   length (Dosimeter.counts self) + (if is_call_count c then 1 else 0))%nat.
Proof.
  intros Hmono Hok.
  assert (Hcheck :
    window_ok (fst (final_state (Dosimeter.check_accumulation (self, w))))
              (snd (final_state (Dosimeter.check_accumulation (self, w)))) /\
    clock (snd (final_state (Dosimeter.check_accumulation (self, w)))) = clock w /\
    Dosimeter.accum_time (fst (final_state (Dosimeter.check_accumulation (self, w)))) =
      Dosimeter.accum_time self /\
    (length (Dosimeter.counts (fst (final_state (Dosimeter.check_accumulation (self, w))))) <=
     length (Dosimeter.counts self) + 0)%nat).
  { split; [apply check_accumulation_keeps_window_ok; assumption |].
    destruct (check_accumulation_loop_spec (Dosimeter.accum_time self)
                (Dosimeter.counts self) w)
      as (removed & kept & n & Hrun & Hsplit & _ & _).
    rewrite check_accumulation_unfold, Hrun. simpl.
    repeat split. rewrite Hsplit, length_app. lia. }
  destruct c; cbn [Dosimeter_step is_call_count].
  - split; [apply count_keeps_window_ok; assumption |].
    destruct (count_final_state self w) as (Hcs & Hacc & _ & Hclock).
    repeat split; try assumption. rewrite Hcs, length_app. simpl. lia.
  - exact Hcheck.
  - rewrite get_all_counts_unfold.
    destruct (Dosimeter.check_accumulation (self, w)) as [a s | e s]; exact Hcheck.
Qed.

(** X3: from a window in arrival order and under a clock that never goes
    back, any sequence of [count], [check_accumulation] and [get_all_counts]
    leaves a window in arrival order, never changes the retention, and
    never leaves more events than the window had plus the calls of [count]
    made. *)
Theorem window_order_is_invariant (cs : list Dosimeter_call) (self : Dosimeter.t)
    (w : World) :
  clock_monotone w ->
  window_ok self w ->
  window_ok (fst (Dosimeter_run cs (self, w))) (snd (Dosimeter_run cs (self, w))) /\
  Dosimeter.accum_time (fst (Dosimeter_run cs (self, w))) = Dosimeter.accum_time self /\
  (length (Dosimeter.counts (fst (Dosimeter_run cs (self, w)))) <=
   length (Dosimeter.counts self) + length (List.filter is_call_count cs))%nat.
Proof.
  revert self w. induction cs as [| c cs IH]; intros self w Hmono Hok.
  - simpl. repeat split; try apply Hok. lia.
  - destruct (Dosimeter_step_keeps c self w Hmono Hok) as (Hok1 & Hclock & Hacc & Hlen).
    cbn [Dosimeter_run fold_left].
    destruct (Dosimeter_step c (self, w)) as [self1 w1] eqn:Hstep.
    cbn [fst snd] in *.
    assert (Hmono1 : clock_monotone w1) by (unfold clock_monotone; rewrite Hclock; exact Hmono).
    destruct (IH self1 w1 Hmono1 Hok1) as (Hok' & Hacc' & Hlen').
    fold (Dosimeter_run cs (self1, w1)).
    split; [exact Hok' |]. split; [congruence |].
    cbn [List.filter]. destruct (is_call_count c); simpl in *; lia.
Qed.

Lemma window_order_is_invariant_witness :
  let cs := [call_count; call_get_all_counts; call_count; call_check_accumulation] in
  let self := Dosimeter.mk None [] 30 in
  let w := boot_world (fun k => 20 * Z.of_nat k) (fun _ => 0) in
  window_ok (fst (Dosimeter_run cs (self, w))) (snd (Dosimeter_run cs (self, w))) /\
  Dosimeter.accum_time (fst (Dosimeter_run cs (self, w))) = Dosimeter.accum_time self /\
  (length (Dosimeter.counts (fst (Dosimeter_run cs (self, w)))) <=
   length (Dosimeter.counts self) + length (List.filter is_call_count cs))%nat.
Proof.
  cbv zeta.
  apply (window_order_is_invariant
           [call_count; call_get_all_counts; call_count; call_check_accumulation]
           (Dosimeter.mk None [] 30)
           (boot_world (fun k => 20 * Z.of_nat k) (fun _ => 0))).
  - intros i j Hij. simpl. lia.
  - split; simpl; constructor.
Defined.

(** X4: an event just recorded by [count], whether [count] returned or
    raised, is in what the next [get_all_counts] returns, provided every
    reading of the clock from then on is less than the retention after its
    stamp. *)
Theorem sampling_returns_new_count (self : Dosimeter.t) (w : World) :
  (forall k : nat, (2 + ticks w <= k)%nat ->
     clock w k - clock w (Datatypes.S (ticks w)) < Dosimeter.accum_time self) ->
  exists (cs : list Z) (s : Dosimeter.t * World),
    Dosimeter.get_all_counts (final_state (Dosimeter.count (self, w))) = Returned cs s /\
    In (clock w (Datatypes.S (ticks w))) cs /\
    Dosimeter.counts (fst s) = cs.
Proof.
  intros Hfresh.
  destruct (count_final_state self w) as (Hcs & Hacc & Hticks & Hclock).
  destruct (final_state (Dosimeter.count (self, w))) as [self1 w1].
  cbn [fst snd] in *.
  destruct (check_accumulation_loop_spec (Dosimeter.accum_time self1)
              (Dosimeter.counts self1) w1)
    as (removed & kept & n & Hrun & Hsplit & Hrem & _).
  exists kept, (Dosimeter.set_counts kept self1, advance n w1).
  rewrite get_all_counts_unfold, check_accumulation_unfold, Hrun.
  split; [reflexivity |]. split; [| reflexivity].
  assert (Hin : In (clock w (Datatypes.S (ticks w))) (removed ++ kept)).
  { rewrite <- Hsplit, Hcs. apply in_or_app. right. left. reflexivity. }
  apply in_app_or in Hin. destruct Hin as [Hin | Hin]; [| exact Hin].
  exfalso. apply list_elem_of_In, list_elem_of_lookup in Hin. destruct Hin as [i Hi].
  specialize (Hrem i _ Hi). rewrite Hclock, Hticks, Hacc in Hrem.
  specialize (Hfresh (i + (2 + ticks w))%nat ltac:(lia)). lia.
Qed.

Lemma sampling_returns_new_count_witness :
  exists (cs : list Z) (s : Dosimeter.t * World),
    Dosimeter.get_all_counts
      (final_state
         (Dosimeter.count
            (Dosimeter.mk (Some (dosimeter.LED.mk 21 None)) [0] 30,
             boot_world (fun k => Z.min (Z.of_nat k) 20) (fun _ => 0)))) = Returned cs s /\
    In 1 cs /\
    Dosimeter.counts (fst s) = cs.
Proof.
  apply (sampling_returns_new_count
           (Dosimeter.mk (Some (dosimeter.LED.mk 21 None)) [0] 30)
           (boot_world (fun k => Z.min (Z.of_nat k) 20) (fun _ => 0))).
  intros k _. simpl. lia.
Defined.

(** ** The callback, in full *)

(** X5: with an LED on a live pin, [count] returns; the window has grown by
    one stamp, the second of the two readings of the clock the call makes,
    while the message printed carries the first; the LED was driven high,
    held 5 ms and driven low, and is low at the end. *)
Theorem count_records_then_flashes (self : Dosimeter.t) (w : World) (led : dosimeter.LED.t) :
  Dosimeter.LED self = Some led ->
  pin_live w (dosimeter.LED.pin led) ->
  exists w' : World,
    Dosimeter.count (self, w) =
      Returned tt
        (Dosimeter.set_counts
           (Dosimeter.counts self ++ [clock w (Datatypes.S (ticks w))]) self, w') /\
    trace w' =
      trace w ++
      [Printed (msg_count_at (clock w (ticks w)));
       Wrote (dosimeter.LED.pin led) true; Slept (5 # 1000);
       Wrote (dosimeter.LED.pin led) false] /\
    pin_level w' (dosimeter.LED.pin led) = Some false /\
    ticks w' = (2 + ticks w)%nat.
Proof.
  intros HLED Hlive.
  destruct (count_with_live_LED self w led HLED Hlive) as (w' & Hret & Htrace & Hlevel).
  exists w'. split.
  - rewrite Hret. unfold counted, time_float, EPOCH_START_TIME. cbn [fst].
    rewrite Z.sub_0_r. reflexivity.
  - split; [rewrite Htrace; unfold counted; simpl; rewrite <- app_assoc; reflexivity |].
    split; [exact Hlevel |].
    destruct (count_final_state self w) as (_ & _ & Hticks & _).
    rewrite Hret in Hticks. exact Hticks.
Qed.

Lemma count_records_then_flashes_witness :
  exists w' : World,
    Dosimeter.count
      (Dosimeter.mk (Some (dosimeter.LED.mk 21 None)) [5] 30,
       world_with_output 21 (fun k => 10 + Z.of_nat k) (fun _ => 0)) =
      Returned tt (Dosimeter.mk (Some (dosimeter.LED.mk 21 None)) [5; 11] 30, w') /\
    trace w' =
      [Printed (msg_count_at 10); Wrote 21 true; Slept (5 # 1000); Wrote 21 false] /\
    pin_level w' 21 = Some false /\
    ticks w' = 2%nat.
Proof.
  apply (count_records_then_flashes
           (Dosimeter.mk (Some (dosimeter.LED.mk 21 None)) [5] 30)
           (world_with_output 21 (fun k => 10 + Z.of_nat k) (fun _ => 0))
           (dosimeter.LED.mk 21 None)).
  - reflexivity.
  - reflexivity.
Defined.

(** X6: [count] raises exactly when the Dosimeter holds an LED whose pin is
    not a live output; in every other case it returns. *)
Theorem count_raises_iff_dead_LED (self : Dosimeter.t) (w : World) :
  (exists (e : exn) (s : Dosimeter.t * World), Dosimeter.count (self, w) = Raised e s) <->
  (exists led : dosimeter.LED.t,
      Dosimeter.LED self = Some led /\ ~ pin_live w (dosimeter.LED.pin led)).
Proof.
  split.
  - intros (e & s & Hraise).
    destruct (count_raises_only_from_flash self w e s Hraise) as (_ & _ & Hled).
    exact Hled.
  - intros (led & HLED & Hdead).
    exists RuntimeError, (counted self w).
    apply (count_fault_propagates_aux self w led HLED Hdead).
Qed.

(** ** The LED, in full *)

Lemma blink_round_live (interval : Q) (led : auxiliaries.LED.t) (w : World) :
  pin_live w (LED.pin led) ->
  exists w1 : World,
    (forall k : M (LED.t * World) unit,
        (LED.on;; world (sleep (interval / 2)%Q);; LED.off;;
         world (sleep (interval / 2)%Q);; k) (led, w) = k (led, w1)) /\
    trace w1 = trace w ++ blink_round (LED.pin led) interval /\
    procs w1 = procs w /\
    pin_live w1 (LED.pin led) /\
    pin_level w1 (LED.pin led) = Some false.
Proof.
  intros Hlive.
  set (wa := driven (LED.pin led) true w).
  set (wb := emit (Slept (interval / 2)) wa).
  assert (Hliveb : pin_live wb (LED.pin led)) by exact Hlive.
  set (wc := driven (LED.pin led) false wb).
  exists (emit (Slept (interval / 2)) wc).
  split.
  - intros k. unfold bind at 1. rewrite (aux_on_live led w Hlive).
    unfold bind at 1. unfold world at 1, zoom, sleep. cbn [fst snd].
    fold wa. fold wb.
    unfold bind at 1. rewrite (aux_off_live led wb Hliveb).
    reflexivity.
  - split; [simpl; rewrite <- !app_assoc; reflexivity |].
    split; [reflexivity |]. split; [exact Hlive |].
    unfold pin_live in Hlive. unfold pin_level. simpl. rewrite Hlive.
    apply lookup_insert_eq.
Qed.

(** X7: on a live pin, [n] rounds of the blink task return; they write the
    pin high, sleep half the period, write it low and sleep the other half,
    [n] times over and nothing else; no process is touched; the pin is low
    after the last round. *)
Theorem blink_task_rounds (n : nat) (interval : Q) (led : auxiliaries.LED.t) (w : World) :
  pin_live w (auxiliaries.LED.pin led) ->
  exists w' : World,
    auxiliaries.LED._do_blink n interval (led, w) = Returned tt (led, w') /\
    trace w' = trace w ++ concat (repeat (blink_round (auxiliaries.LED.pin led) interval) n) /\
    procs w' = procs w /\
    pin_level w' (auxiliaries.LED.pin led) =
      match n with
      | O => pin_level w (auxiliaries.LED.pin led)
      | Datatypes.S _ => Some false
      end.
Proof.
  revert w. induction n as [| n IH]; intros w Hlive.
  - exists w. split; [reflexivity |]. simpl. rewrite app_nil_r. repeat split.
  - destruct (blink_round_live interval led w Hlive)
      as (w1 & Hround & Htrace1 & Hprocs1 & Hlive1 & Hlevel1).
    destruct (IH w1 Hlive1) as (w' & Hrest & Htrace & Hprocs & Hlevel).
    exists w'. split.
    + cbn [LED._do_blink]. rewrite Hround. exact Hrest.
    + split; [rewrite Htrace, Htrace1; simpl; rewrite <- app_assoc; reflexivity |].
      split; [congruence |].
      destruct n; [rewrite Hlevel; exact Hlevel1 | exact Hlevel].
Qed.

Lemma blink_task_rounds_witness :
  exists w' : World,
    auxiliaries.LED._do_blink 2 (15 # 10) (auxiliaries.LED.mk 20 None,
                               world_with_output 20 (fun _ => 0) (fun _ => 0)) =
      Returned tt (auxiliaries.LED.mk 20 None, w') /\
    trace w' = [] ++ concat (repeat (blink_round 20 (15 # 10)) 2) /\
    procs w' = [] /\
    pin_level w' 20 = Some false.
Proof.
  apply (blink_task_rounds 2 (15 # 10) (auxiliaries.LED.mk 20 None)
           (world_with_output 20 (fun _ => 0) (fun _ => 0))).
  reflexivity.
Defined.

Lemma blinks_on_terminated_blinker (b : nat) (ps : list proc) (pin : Z) :
  blinks_on (terminated (Some b) ps) pin b = false.
Proof.
  unfold blinks_on, terminated. rewrite list_lookup_alter_eq.
  destruct (ps !! b) as [[t a] |]; simpl; [| reflexivity].
  destruct t; reflexivity.
Qed.

(** X8: [stop_blink] after the handle was torn down.  In auxiliaries.py it
    returns: the task named by [blinker] is terminated, no pin is written
    and nothing is traced.  In dosimeter.py it raises RuntimeError out of
    its [off], and the task named by [blinker] was terminated before. *)
Theorem stop_blink_after_teardown (pin : Z) (blinker : option nat) (w : World) :
  ~ pin_live w pin ->
  auxiliaries.LED.stop_blink (auxiliaries.LED.mk pin blinker, w) =
    Returned tt (auxiliaries.LED.mk pin blinker, set_procs (terminated blinker (procs w)) w) /\
  dosimeter.LED.stop_blink (dosimeter.LED.mk pin blinker, w) =
    Raised RuntimeError
      (dosimeter.LED.mk pin blinker, set_procs (terminated blinker (procs w)) w) /\
  (forall b : nat, blinker = Some b ->
     blinks_on (terminated blinker (procs w)) pin b = false).
Proof.
  intros Hdead. split; [| split].
  - rewrite stop_blink_unfold. apply aux_off_dead. exact Hdead.
  - assert (Hdead1 : ~ pin_live (set_procs (terminated blinker (procs w)) w) pin)
      by exact Hdead.
    unfold dosimeter.LED.stop_blink, dosimeter.LED.off, bind, this, world, zoom,
      multiprocessing.terminate, ret.
    destruct blinker as [b |];
      cbn [fst snd dosimeter.LED.blinker dosimeter.LED.pin terminated] in *.
    + rewrite (output_dead pin false _ Hdead1). reflexivity.
    + replace (set_procs (procs w) w) with w by (destruct w; reflexivity).
      rewrite (output_dead pin false _ Hdead). reflexivity.
  - intros b ->. apply blinks_on_terminated_blinker.
Qed.

Lemma stop_blink_after_teardown_witness :
  let w := set_procs [mkProcess (do_blink_target 20 1) true] (boot_world (fun _ => 0) (fun _ => 0)) in
  auxiliaries.LED.stop_blink (auxiliaries.LED.mk 20 (Some 0%nat), w) =
    Returned tt (auxiliaries.LED.mk 20 (Some 0%nat),
                 set_procs (terminated (Some 0%nat) (procs w)) w) /\
  dosimeter.LED.stop_blink (dosimeter.LED.mk 20 (Some 0%nat), w) =
    Raised RuntimeError
      (dosimeter.LED.mk 20 (Some 0%nat), set_procs (terminated (Some 0%nat) (procs w)) w) /\
  (forall b : nat, Some 0%nat = Some b ->
     blinks_on (terminated (Some 0%nat) (procs w)) 20 b = false).
Proof.
  cbv zeta.
  apply (stop_blink_after_teardown 20 (Some 0%nat)
           (set_procs [mkProcess (do_blink_target 20 1) true]
              (boot_world (fun _ => 0) (fun _ => 0)))).
  unfold pin_live. simpl. rewrite lookup_empty. discriminate.
Defined.

Lemma writes_keep_LED_and_procs (led : auxiliaries.LED.t) (w : World) :
  (fst (final_state (auxiliaries.LED.on (led, w))) = led /\
   procs (snd (final_state (auxiliaries.LED.on (led, w)))) = procs w) /\
  (fst (final_state (auxiliaries.LED.off (led, w))) = led /\
   procs (snd (final_state (auxiliaries.LED.off (led, w)))) = procs w) /\
  (fst (final_state (auxiliaries.LED.flash (led, w))) = led /\
   procs (snd (final_state (auxiliaries.LED.flash (led, w)))) = procs w).
Proof.
  destruct (channels (gpio w) !! auxiliaries.LED.pin led) as [[|] |] eqn:Hch.
  - assert (Hdead : ~ pin_live w (auxiliaries.LED.pin led)) by (unfold pin_live; congruence).
    unfold auxiliaries.LED.flash, bind.
    rewrite (aux_on_dead led w Hdead), (aux_off_dead led w Hdead). repeat split.
  - assert (Hlive : pin_live w (auxiliaries.LED.pin led)) by exact Hch.
    unfold auxiliaries.LED.flash, bind.
    rewrite (aux_on_live led w Hlive), (aux_off_live led w Hlive).
    unfold world, zoom, sleep. cbn [fst snd].
    rewrite aux_off_live by exact Hlive. repeat split.
  - assert (Hdead : ~ pin_live w (auxiliaries.LED.pin led)) by (unfold pin_live; congruence).
    unfold auxiliaries.LED.flash, bind.
    rewrite (aux_on_dead led w Hdead), (aux_off_dead led w Hdead). repeat split.
Qed.

Lemma LED_step_keeps (c : LED_call) (led : auxiliaries.LED.t) (w : World) :
  owns_blinkers led w ->
  owns_blinkers (fst (LED_step c (led, w))) (snd (LED_step c (led, w))) /\
  auxiliaries.LED.pin (fst (LED_step c (led, w))) = auxiliaries.LED.pin led.
Proof.
  intros Hown.
  destruct (writes_keep_LED_and_procs led w) as ((Hon1 & Hon2) & (Hoff1 & Hoff2) & (Hfl1 & Hfl2)).
  destruct c; cbn [LED_step].
  - unfold owns_blinkers. rewrite Hon1, Hon2. split; [exact Hown | reflexivity].
  - unfold owns_blinkers. rewrite Hoff1, Hoff2. split; [exact Hown | reflexivity].
  - unfold owns_blinkers. rewrite Hfl1, Hfl2. split; [exact Hown | reflexivity].
  - destruct (start_blink_spec interval led w Hown)
      as (led' & w' & Hrun & Hpin & _ & _ & _ & _ & _ & Hown').
    rewrite Hrun. cbn [final_state fst snd]. split; assumption.
  - rewrite stop_blink_unfold.
    set (w1 := set_procs (terminated (auxiliaries.LED.blinker led) (procs w)) w).
    destruct (writes_keep_LED_and_procs led w1) as (_ & (Hoff1' & Hoff2') & _).
    unfold owns_blinkers. rewrite Hoff1', Hoff2'. split; [| reflexivity].
    intros pid Hpid. simpl in Hpid.
    rewrite (blinks_on_terminated led w pid Hown) in Hpid. discriminate.
Qed.

Lemma owns_at_most_one (led : auxiliaries.LED.t) (w : World) :
  owns_blinkers led w ->
  (length (active_blinkers w (auxiliaries.LED.pin led)) <= 1)%nat.
Proof.
  intros Hown. unfold active_blinkers.
  set (f := blinks_on (procs w) (auxiliaries.LED.pin led)).
  assert (Hnd : List.NoDup (List.filter f (seq 0 (length (procs w)))))
    by (apply List.NoDup_filter, List.seq_NoDup).
  assert (Hall : forall x, In x (List.filter f (seq 0 (length (procs w)))) ->
                   auxiliaries.LED.blinker led = Some x).
  { intros x Hx. apply List.filter_In in Hx. apply Hown. apply Hx. }
  destruct (List.filter f (seq 0 (length (procs w)))) as [| x [| y l]]; simpl; try lia.
  exfalso.
  pose proof (Hall x (or_introl eq_refl)) as Hx.
  pose proof (Hall y (or_intror (or_introl eq_refl))) as Hy.
  assert (x = y) by congruence. subst y.
  inversion Hnd as [| ? ? Hnotin _]. apply Hnotin. left. reflexivity.
Qed.

(** X9: an LED that owns the blink tasks of its pin (a new LED does, when
    no task runs on its pin) keeps owning them through any sequence of
    [on], [off], [flash], [start_blink] and [stop_blink], raising or not; so
    at most one blink task runs on its pin at any time, and the LED stays
    on its pin. *)
Theorem one_blink_task_at_most (cs : list LED_call) (led : auxiliaries.LED.t) (w : World) :
  owns_blinkers led w ->
  owns_blinkers (fst (LED_run cs (led, w))) (snd (LED_run cs (led, w))) /\
  auxiliaries.LED.pin (fst (LED_run cs (led, w))) = auxiliaries.LED.pin led /\
  (length (active_blinkers (snd (LED_run cs (led, w))) (auxiliaries.LED.pin led)) <= 1)%nat.
Proof.
  revert led w. induction cs as [| c cs IH]; intros led w Hown.
  - simpl. split; [exact Hown |]. split; [reflexivity |].
    apply owns_at_most_one. exact Hown.
  - cbn [LED_run fold_left].
    destruct (LED_step_keeps c led w Hown) as (Hown1 & Hpin1).
    destruct (LED_step c (led, w)) as [led1 w1]. cbn [fst snd] in *.
    destruct (IH led1 w1 Hown1) as (Hown' & Hpin' & Hlen').
    fold (LED_run cs (led1, w1)).
    split; [exact Hown' |]. split; [congruence |].
    rewrite <- Hpin1. exact Hlen'.
Qed.

Lemma one_blink_task_at_most_witness :
  let cs := [led_start_blink 1; led_on; led_start_blink 2; led_flash; led_stop_blink;
             led_start_blink 3] in
  let led := auxiliaries.LED.mk 20 None in
  let w := world_with_output 20 (fun _ => 0) (fun _ => 0) in
  owns_blinkers (fst (LED_run cs (led, w))) (snd (LED_run cs (led, w))) /\
  auxiliaries.LED.pin (fst (LED_run cs (led, w))) = 20 /\
  (length (active_blinkers (snd (LED_run cs (led, w))) 20) <= 1)%nat.
Proof.
  cbv zeta.
  apply (one_blink_task_at_most
           [led_start_blink 1; led_on; led_start_blink 2; led_flash; led_stop_blink;
            led_start_blink 3]
           (auxiliaries.LED.mk 20 None)
           (world_with_output 20 (fun _ => 0) (fun _ => 0))).
  intros pid H. unfold blinks_on in H. simpl in H. destruct pid; discriminate.
Defined.

(** ** The network monitor, in full *)

Lemma vprint_world (level : Z) (m : message) (self : NetworkStatus.t) (w : World) :
  exists w' : World,
    NetworkStatus.vprint level m (self, w) = Returned tt (self, w') /\
    procs w' = procs w /\
    gpio w' = gpio w /\
    trace w' = trace w ++ vprinted (NetworkStatus.v self) level m.
Proof.
  unfold NetworkStatus.vprint, vprinted, bind, this, world, zoom, print, ret. simpl.
  destruct (NetworkStatus.v self >=? level); simpl.
  - eexists. split; [reflexivity |]. repeat split.
  - eexists. split; [reflexivity |]. repeat split. symmetry. apply app_nil_r.
Qed.

Lemma set_procs_same (w : World) : set_procs (procs w) w = w.
Proof. destruct w; reflexivity. Qed.

(** The LED part of [update] after a successful probe, on a live pin. *)
Lemma led_steady_on_full (l : LED.t) (w : World) :
  pin_live w (LED.pin l) ->
  exists w' : World,
    (do l' <- this;
     match LED.blinker l' with
     | Some _ => LED.stop_blink
     | None => ret tt
     end;;
     LED.on) (l, w) = Returned tt (l, w') /\
    procs w' = terminated (LED.blinker l) (procs w) /\
    channels (gpio w') = channels (gpio w) /\
    pin_level w' (LED.pin l) = Some true /\
    trace w' = trace w ++
               match LED.blinker l with
               | Some _ => [Wrote (LED.pin l) false]
               | None => []
               end ++ [Wrote (LED.pin l) true].
Proof.
  intros Hlive. unfold bind at 1 2. unfold this at 1. cbn [fst].
  destruct (LED.blinker l) as [b |] eqn:Hb.
  - rewrite stop_blink_unfold, Hb.
    set (w1 := set_procs (terminated (Some b) (procs w)) w).
    assert (Hlive1 : pin_live w1 (LED.pin l)) by exact Hlive.
    rewrite (aux_off_live l w1 Hlive1).
    assert (Hlive2 : pin_live (driven (LED.pin l) false w1) (LED.pin l)) by exact Hlive.
    rewrite (aux_on_live l _ Hlive2).
    eexists. split; [reflexivity |].
    split; [reflexivity |]. split; [reflexivity |].
    split; [apply driven_level; exact Hlive2 |].
    simpl. rewrite <- app_assoc. reflexivity.
  - unfold ret. rewrite (aux_on_live l w Hlive).
    eexists. split; [reflexivity |].
    split; [reflexivity |]. split; [reflexivity |].
    split; [apply driven_level; exact Hlive | reflexivity].
Qed.

Lemma update_up_full (self : NetworkStatus.t) (w : World) (l : LED.t) :
  NetworkStatus.led self = Some l ->
  pin_live w (LED.pin l) ->
  ping_status w (pings w) = 0 ->
  exists w' : World,
    NetworkStatus.update (self, w) =
      Returned tt (NetworkStatus.set_led (Some l) (NetworkStatus.set_is_up true self), w') /\
    procs w' = terminated (LED.blinker l) (procs w) /\
    pin_level w' (LED.pin l) = Some true /\
    trace w' = trace w ++ [Pinged (NetworkStatus.hostname self)] ++
               match LED.blinker l with
               | Some _ => [Wrote (LED.pin l) false]
               | None => []
               end ++ [Wrote (LED.pin l) true] ++
               vprinted (NetworkStatus.v self) 2 (msg_is_up (NetworkStatus.hostname self)).
Proof.
  intros Hled Hlive Hr. rewrite update_unfold. cbv zeta. rewrite Hr, Hled.
  change (0 =? 0) with true. cbv iota.
  set (w1 := final_state (os_system_ping (NetworkStatus.hostname self) w)).
  assert (Hlive1 : pin_live w1 (LED.pin l)) by exact Hlive.
  destruct (led_steady_on_full l w1 Hlive1) as (w2 & Hrun & Hprocs & Hch & Hlevel & Htrace).
  unfold bind at 1. unfold NetworkStatus.on_led, zoom. cbn [fst snd].
  rewrite Hrun. cbn [fst snd].
  destruct (vprint_world 2 (msg_is_up (NetworkStatus.hostname self))
              (NetworkStatus.set_led (Some l) (NetworkStatus.set_is_up true self)) w2)
    as (w3 & Hpr & Hprocs3 & Hgpio3 & Htrace3).
  rewrite Hpr. exists w3. split; [reflexivity |].
  split; [rewrite Hprocs3, Hprocs; reflexivity |].
  split.
  - unfold pin_level in *. rewrite Hgpio3. exact Hlevel.
  - rewrite Htrace3, Htrace. simpl. rewrite <- !app_assoc. reflexivity.
Qed.

Lemma update_down_full (self : NetworkStatus.t) (w : World) (l : LED.t) :
  NetworkStatus.led self = Some l ->
  ping_status w (pings w) <> 0 ->
  exists w' : World,
    NetworkStatus.update (self, w) =
      Returned tt
        (NetworkStatus.set_led (Some (LED.mk (LED.pin l) (Some (length (procs w)))))
           (NetworkStatus.set_is_up false self), w') /\
    procs w' = spawned (do_blink_target (LED.pin l) (NetworkStatus.blink_period_s self))
                 (terminated (LED.blinker l) (procs w)) /\
    gpio w' = gpio w /\
    trace w' = trace w ++ [Pinged (NetworkStatus.hostname self)] ++
               vprinted (NetworkStatus.v self) 1 (msg_is_down (NetworkStatus.hostname self)).
Proof.
  intros Hled Hr. rewrite update_unfold. cbv zeta.
  apply Z.eqb_neq in Hr. rewrite Hr, Hled.
  set (w1 := final_state (os_system_ping (NetworkStatus.hostname self) w)).
  unfold bind at 1. unfold NetworkStatus.on_led, zoom. cbn [fst snd].
  rewrite start_blink_unfold. cbn [fst snd].
  set (w2 := set_procs _ w1).
  destruct (vprint_world 1 (msg_is_down (NetworkStatus.hostname self))
              (NetworkStatus.set_led (Some (LED.mk (LED.pin l) (Some (length (procs w1)))))
                 (NetworkStatus.set_is_up false self)) w2)
    as (w3 & Hpr & Hprocs3 & Hgpio3 & Htrace3).
  rewrite Hpr. exists w3. split; [reflexivity |].
  split; [rewrite Hprocs3; reflexivity |].
  split; [rewrite Hgpio3; reflexivity |].
  rewrite Htrace3. simpl. rewrite <- app_assoc. reflexivity.
Qed.

Lemma update_noled_full (self : NetworkStatus.t) (w : World) :
  NetworkStatus.led self = None ->
  exists w' : World,
    NetworkStatus.update (self, w) =
      Returned tt (NetworkStatus.set_is_up (ping_status w (pings w) =? 0) self, w') /\
    procs w' = procs w /\
    gpio w' = gpio w /\
    trace w' = trace w ++ [Pinged (NetworkStatus.hostname self)] ++
               if ping_status w (pings w) =? 0
               then vprinted (NetworkStatus.v self) 2 (msg_is_up (NetworkStatus.hostname self))
               else vprinted (NetworkStatus.v self) 1
                      (msg_is_down (NetworkStatus.hostname self)).
Proof.
  intros Hled. rewrite update_unfold. cbv zeta. rewrite Hled.
  set (w1 := final_state (os_system_ping (NetworkStatus.hostname self) w)).
  destruct (ping_status w (pings w) =? 0).
  - unfold bind at 1. unfold ret at 1.
    destruct (vprint_world 2 (msg_is_up (NetworkStatus.hostname self))
                (NetworkStatus.set_is_up true self) w1) as (w3 & Hpr & Hp & Hg & Ht).
    rewrite Hpr. exists w3. split; [reflexivity |].
    split; [rewrite Hp; reflexivity |]. split; [rewrite Hg; reflexivity |].
    rewrite Ht. simpl. rewrite <- app_assoc. reflexivity.
  - unfold bind at 1. unfold ret at 1.
    destruct (vprint_world 1 (msg_is_down (NetworkStatus.hostname self))
                (NetworkStatus.set_is_up false self) w1) as (w3 & Hpr & Hp & Hg & Ht).
    rewrite Hpr. exists w3. split; [reflexivity |].
    split; [rewrite Hp; reflexivity |]. split; [rewrite Hg; reflexivity |].
    rewrite Ht. simpl. rewrite <- app_assoc. reflexivity.
Qed.

(** X10: the monitor loop under any script of probe outcomes.  With a live
    LED pin, or no LED, [n] rounds return; they make the next [n] probes,
    each followed by one sleep, of [up_interval_s] when that probe exited
    with 0 and of [down_interval_s] otherwise; and the state at the end is
    the one the last probe has set. *)
Theorem monitor_schedule (n : nat) (self : NetworkStatus.t) (w : World) :
  led_ready self w ->
  exists (self' : NetworkStatus.t) (w' : World),
    NetworkStatus._do_pings n (self, w) = Returned tt (self', w') /\
    pings w' = (n + pings w)%nat /\
    probes_and_sleeps (trace w') =
      probes_and_sleeps (trace w) ++ schedule self (next_statuses w n) /\
    NetworkStatus.is_up self' =
      List.last (map (fun r => r =? 0) (next_statuses w n)) (NetworkStatus.is_up self).
Proof.
  intros Hready.
  destruct (do_pings_spec n self w Hready)
    as (self' & w' & Hrun & _ & _ & Hp & _ & Ht & Hup).
  exists self', w'. repeat split; assumption.
Qed.

Lemma monitor_schedule_witness :
  let self := NetworkStatus.mk "dosenet.dhcp.lbl.gov" 300 5 None (15 # 10) 1 false None in
  let w := boot_world (fun _ => 0) (fun k => if Nat.even k then 0 else 256) in
  exists (self' : NetworkStatus.t) (w' : World),
    NetworkStatus._do_pings 3 (self, w) = Returned tt (self', w') /\
    pings w' = (3 + pings w)%nat /\
    probes_and_sleeps (trace w') =
      probes_and_sleeps (trace w) ++ schedule self (next_statuses w 3) /\
    NetworkStatus.is_up self' =
      List.last (map (fun r => r =? 0) (next_statuses w 3)) (NetworkStatus.is_up self).
Proof.
  cbv zeta.
  apply (monitor_schedule 3
           (NetworkStatus.mk "dosenet.dhcp.lbl.gov" 300 5 None (15 # 10) 1 false None)
           (boot_world (fun _ => 0) (fun k => if Nat.even k then 0 else 256))).
  exact I.
Defined.

(** X11: a successful probe leaves the LED steady on.  With an LED on a live
    pin that owns the blink tasks of its pin, [update] after a probe that
    exits with 0 returns with [is_up] true, no blink task running on the
    pin, and the pin high. *)
Theorem update_up_lights_LED (self : NetworkStatus.t) (w : World) (l : LED.t) :
  NetworkStatus.led self = Some l ->
  pin_live w (LED.pin l) ->
  owns_blinkers l w ->
  ping_status w (pings w) = 0 ->
  exists (self' : NetworkStatus.t) (w' : World),
    NetworkStatus.update (self, w) = Returned tt (self', w') /\
    NetworkStatus.is_up self' = true /\
    NetworkStatus.led self' = Some l /\
    active_blinkers w' (LED.pin l) = [] /\
    pin_level w' (LED.pin l) = Some true.
Proof.
  intros Hled Hlive Hown Hr.
  destruct (update_up_full self w l Hled Hlive Hr) as (w' & Hrun & Hprocs & Hlevel & _).
  exists (NetworkStatus.set_led (Some l) (NetworkStatus.set_is_up true self)), w'.
  split; [exact Hrun |]. split; [reflexivity |]. split; [reflexivity |].
  split; [| exact Hlevel].
  unfold active_blinkers. rewrite Hprocs. apply filter_all_false.
  intros q _. apply blinks_on_terminated. exact Hown.
Qed.

Lemma update_up_lights_LED_witness :
  let l := LED.mk 20 (Some 0%nat) in
  let self := NetworkStatus.mk "dosenet.dhcp.lbl.gov" 300 5 (Some l) (15 # 10) 1 false None in
  let w := set_procs [mkProcess (do_blink_target 20 (15 # 10)) true]
             (world_with_output 20 (fun _ => 0) (fun _ => 0)) in
  exists (self' : NetworkStatus.t) (w' : World),
    NetworkStatus.update (self, w) = Returned tt (self', w') /\
    NetworkStatus.is_up self' = true /\
    NetworkStatus.led self' = Some l /\
    active_blinkers w' 20 = [] /\
    pin_level w' 20 = Some true.
Proof.
  cbv zeta.
  apply (update_up_lights_LED
           (NetworkStatus.mk "dosenet.dhcp.lbl.gov" 300 5 (Some (LED.mk 20 (Some 0%nat)))
              (15 # 10) 1 false None)
           (set_procs [mkProcess (do_blink_target 20 (15 # 10)) true]
              (world_with_output 20 (fun _ => 0) (fun _ => 0)))
           (LED.mk 20 (Some 0%nat))).
  - reflexivity.
  - reflexivity.
  - intros pid H. unfold blinks_on in H. simpl in H.
    destruct pid as [| pid]; [reflexivity |]. destruct pid; discriminate.
  - reflexivity.
Defined.

(** X12: a failed probe leaves the LED blinking, once.  With an LED on a
    live pin that owns the blink tasks of its pin, [update] after a probe
    that does not exit with 0 returns with [is_up] false and exactly one
    blink task running on the pin: a new one, of period [blink_period_s],
    named by the [blinker] of the LED; [update] itself writes no pin. *)
Theorem update_down_blinks (self : NetworkStatus.t) (w : World) (l : LED.t) :
  NetworkStatus.led self = Some l ->
  pin_live w (LED.pin l) ->
  owns_blinkers l w ->
  ping_status w (pings w) <> 0 ->
  exists (self' : NetworkStatus.t) (w' : World) (l' : LED.t) (p : nat),
    NetworkStatus.update (self, w) = Returned tt (self', w') /\
    NetworkStatus.is_up self' = false /\
    NetworkStatus.led self' = Some l' /\
    LED.pin l' = LED.pin l /\
    LED.blinker l' = Some p /\
    active_blinkers w' (LED.pin l) = [p] /\
    procs w' !! p =
      Some (mkProcess (do_blink_target (LED.pin l) (NetworkStatus.blink_period_s self)) true) /\
    gpio w' = gpio w /\
    pin_live w' (LED.pin l).
Proof.
  intros Hled Hlive Hown Hr.
  destruct (update_down_full self w l Hled Hr) as (w' & Hrun & Hprocs & Hgpio & _).
  destruct (start_blink_spec (NetworkStatus.blink_period_s self) l w Hown)
    as (l2 & w2 & Hrun2 & _ & _ & Hact2 & Hnew2 & _ & _ & _).
  rewrite start_blink_unfold in Hrun2. inversion Hrun2 as [[Hl2 Hw2]].
  assert (Hsame : procs w2 = procs w') by (rewrite <- Hw2, Hprocs; reflexivity).
  exists (NetworkStatus.set_led (Some (LED.mk (LED.pin l) (Some (length (procs w)))))
            (NetworkStatus.set_is_up false self)), w',
    (LED.mk (LED.pin l) (Some (length (procs w)))), (length (procs w)).
  split; [exact Hrun |].
  split; [reflexivity |]. split; [reflexivity |]. split; [reflexivity |].
  split; [reflexivity |].
  split; [unfold active_blinkers in *; rewrite <- Hsame; exact Hact2 |].
  split; [rewrite <- Hsame; exact Hnew2 |].
  split; [exact Hgpio |].
  unfold pin_live. rewrite Hgpio. exact Hlive.
Qed.

Lemma update_down_blinks_witness :
  let l := LED.mk 20 None in
  let self := NetworkStatus.mk "dosenet.dhcp.lbl.gov" 300 5 (Some l) (15 # 10) 1 false None in
  let w := world_with_output 20 (fun _ => 0) (fun _ => 256) in
  exists (self' : NetworkStatus.t) (w' : World) (l' : LED.t) (p : nat),
    NetworkStatus.update (self, w) = Returned tt (self', w') /\
    NetworkStatus.is_up self' = false /\
    NetworkStatus.led self' = Some l' /\
    LED.pin l' = 20 /\
    LED.blinker l' = Some p /\
    active_blinkers w' 20 = [p] /\
    procs w' !! p = Some (mkProcess (do_blink_target 20 (15 # 10)) true) /\
    gpio w' = gpio w /\
    pin_live w' 20.
Proof.
  cbv zeta.
  apply (update_down_blinks
           (NetworkStatus.mk "dosenet.dhcp.lbl.gov" 300 5 (Some (LED.mk 20 None))
              (15 # 10) 1 false None)
           (world_with_output 20 (fun _ => 0) (fun _ => 256))
           (LED.mk 20 None)).
  - reflexivity.
  - reflexivity.
  - intros pid H. unfold blinks_on in H. simpl in H. destruct pid; discriminate.
  - simpl. lia.
Defined.

Lemma led_steady_on_dead (l : LED.t) (w : World) :
  ~ pin_live w (LED.pin l) ->
  (do l' <- this;
   match LED.blinker l' with
   | Some _ => LED.stop_blink
   | None => ret tt
   end;;
   LED.on) (l, w) =
  Raised RuntimeError (l, set_procs (terminated (LED.blinker l) (procs w)) w).
Proof.
  intros Hdead. unfold bind at 1 2. unfold this at 1. cbn [fst].
  destruct (LED.blinker l) as [b |] eqn:Hb.
  - rewrite stop_blink_unfold, Hb.
    set (w1 := set_procs (terminated (Some b) (procs w)) w).
    assert (Hdead1 : ~ pin_live w1 (LED.pin l)) by exact Hdead.
    rewrite (aux_off_dead l w1 Hdead1). apply (aux_on_dead l w1 Hdead1).
  - unfold ret. cbn [terminated]. rewrite set_procs_same. apply (aux_on_dead l w Hdead).
Qed.

(** X13: after the handle was torn down, the first successful probe ends the
    monitor loop.  With an LED whose pin is not a live output, [update]
    after a probe that exits with 0 raises RuntimeError, out of the [on] of
    the LED; [is_up] is already true, the probe is the only effect traced
    (the message of [vprint] is not reached), and [_do_pings] raises with
    it. *)
Theorem monitor_dies_at_success_after_teardown (self : NetworkStatus.t) (w : World)
    (l : LED.t) :
  NetworkStatus.led self = Some l ->
  ~ pin_live w (LED.pin l) ->
  ping_status w (pings w) = 0 ->
  exists (self' : NetworkStatus.t) (w' : World),
    NetworkStatus.update (self, w) = Raised RuntimeError (self', w') /\
    NetworkStatus.is_up self' = true /\
    trace w' = trace w ++ [Pinged (NetworkStatus.hostname self)] /\
    (forall n : nat,
        NetworkStatus._do_pings (Datatypes.S n) (self, w) = Raised RuntimeError (self', w')).
Proof.
  intros Hled Hdead Hr.
  set (w1 := final_state (os_system_ping (NetworkStatus.hostname self) w)).
  assert (Hdead1 : ~ pin_live w1 (LED.pin l)) by exact Hdead.
  assert (Hupd : NetworkStatus.update (self, w) =
                 Raised RuntimeError
                   (NetworkStatus.set_led (Some l) (NetworkStatus.set_is_up true self),
                    set_procs (terminated (LED.blinker l) (procs w1)) w1)).
  { rewrite update_unfold. cbv zeta. rewrite Hr, Hled.
    change (0 =? 0) with true. cbv iota. fold w1.
    unfold bind at 1. unfold NetworkStatus.on_led, zoom. cbn [fst snd].
    rewrite (led_steady_on_dead l w1 Hdead1). reflexivity. }
  eexists _, _. split; [exact Hupd |].
  split; [reflexivity |]. split; [reflexivity |].
  intros n. cbn [NetworkStatus._do_pings]. unfold bind at 1. rewrite Hupd. reflexivity.
Qed.

Lemma monitor_dies_at_success_after_teardown_witness :
  let l := LED.mk 20 None in
  let self := NetworkStatus.mk "dosenet.dhcp.lbl.gov" 300 5 (Some l) (15 # 10) 2 false None in
  let w := boot_world (fun _ => 0) (fun _ => 0) in
  exists (self' : NetworkStatus.t) (w' : World),
    NetworkStatus.update (self, w) = Raised RuntimeError (self', w') /\
    NetworkStatus.is_up self' = true /\
    trace w' = trace w ++ [Pinged "dosenet.dhcp.lbl.gov"] /\
    (forall n : nat,
        NetworkStatus._do_pings (Datatypes.S n) (self, w) = Raised RuntimeError (self', w')).
Proof.
  cbv zeta.
  apply (monitor_dies_at_success_after_teardown
           (NetworkStatus.mk "dosenet.dhcp.lbl.gov" 300 5 (Some (LED.mk 20 None))
              (15 # 10) 2 false None)
           (boot_world (fun _ => 0) (fun _ => 0))
           (LED.mk 20 None)).
  - reflexivity.
  - unfold pin_live. simpl. rewrite lookup_empty. discriminate.
  - reflexivity.
Defined.

Lemma printed_app (l1 l2 : list effect) : printed (l1 ++ l2) = printed l1 ++ printed l2.
Proof. apply List.filter_app. Qed.

Lemma printed_vprinted (v level : Z) (m : message) :
  printed (vprinted v level m) = vprinted v level m.
Proof. unfold vprinted. destruct (v >=? level); reflexivity. Qed.

(** X14: what [update] prints follows the verbosity as the class says:
    nothing at verbosity 0, the DOWN message only at verbosity 1, both
    messages from verbosity 2; one message at most for each probe. *)
Theorem update_prints_by_verbosity (self : NetworkStatus.t) (w : World) :
  led_ready self w ->
  exists (self' : NetworkStatus.t) (w' : World),
    NetworkStatus.update (self, w) = Returned tt (self', w') /\
    printed (trace w') =
      printed (trace w) ++
      if ping_status w (pings w) =? 0
      then (if NetworkStatus.v self >=? 2
            then [Printed (msg_is_up (NetworkStatus.hostname self))] else [])
      else (if NetworkStatus.v self >=? 1
            then [Printed (msg_is_down (NetworkStatus.hostname self))] else []).
Proof.
  intros Hready. unfold led_ready in Hready.
  fold (vprinted (NetworkStatus.v self) 2 (msg_is_up (NetworkStatus.hostname self))).
  fold (vprinted (NetworkStatus.v self) 1 (msg_is_down (NetworkStatus.hostname self))).
  destruct (NetworkStatus.led self) as [l |] eqn:Hled.
  - destruct (Z.eqb_spec (ping_status w (pings w)) 0) as [Hr | Hr].
    + destruct (update_up_full self w l Hled Hready Hr) as (w' & Hrun & _ & _ & Ht).
      eexists _, w'. split; [exact Hrun |].
      rewrite Ht, !printed_app, printed_vprinted.
      destruct (LED.blinker l); reflexivity.
    + destruct (update_down_full self w l Hled Hr) as (w' & Hrun & _ & _ & Ht).
      eexists _, w'. split; [exact Hrun |].
      rewrite Ht, !printed_app, printed_vprinted. reflexivity.
  - destruct (update_noled_full self w Hled) as (w' & Hrun & _ & _ & Ht).
    eexists _, w'. split; [exact Hrun |].
    rewrite Ht, !printed_app.
    destruct (ping_status w (pings w) =? 0); rewrite printed_vprinted; reflexivity.
Qed.

Lemma update_prints_by_verbosity_witness :
  let self := NetworkStatus.mk "dosenet.dhcp.lbl.gov" 300 5 None (15 # 10) 1 false None in
  let w := boot_world (fun _ => 0) (fun _ => 256) in
  exists (self' : NetworkStatus.t) (w' : World),
    NetworkStatus.update (self, w) = Returned tt (self', w') /\
    printed (trace w') = [] ++ [Printed (msg_is_down "dosenet.dhcp.lbl.gov")].
Proof.
  cbv zeta.
  apply (update_prints_by_verbosity
           (NetworkStatus.mk "dosenet.dhcp.lbl.gov" 300 5 None (15 # 10) 1 false None)
           (boot_world (fun _ => 0) (fun _ => 256))).
  exact I.
Defined.

(** ** The waterfall queues *)

Lemma fix_array_loop_spec (a : list Z) (todo : nat) :
  forall (i : nat) (new_array : list Z),
    new_array = take i a ++ replicate (256 - i) 0 ->
    (i + todo = 256)%nat ->
    (i <= length a)%nat ->
    rt_waterfall_D3S.fix_array_loop todo i a new_array =
      if decide (256 <= length a)%nat
      then inr (take 256 a)
      else inl rt_waterfall_D3S.IndexError.
Proof.
  induction todo as [| todo IH]; intros i new_array Hnew Hsum Hle.
  - assert (i = 256%nat) by lia. subst i.
    simpl. rewrite Hnew, app_nil_r.
    destruct (decide (256 <= length a)%nat); [reflexivity | lia].
  - cbn [rt_waterfall_D3S.fix_array_loop].
    destruct (a !! i) as [x |] eqn:Hx.
    + pose proof (lookup_lt_Some _ _ _ Hx) as Hlt.
      apply IH; [| lia | lia].
      rewrite Hnew, insert_app_r_alt by (rewrite length_take_le; lia).
      rewrite length_take_le by lia.
      replace (256 - i)%nat with (Datatypes.S (256 - Datatypes.S i)) by lia.
      rewrite Nat.sub_diag. cbn [replicate].
      rewrite (take_S_r a i x Hx), <- app_assoc. reflexivity.
    + apply lookup_ge_None in Hx.
      destruct (decide (256 <= length a)%nat); [lia | reflexivity].
Qed.

(** X15: [fix_array] returns the first 256 entries of its argument, whatever
    follows them, and raises IndexError on an argument with fewer. *)
Theorem fix_array_takes_256 (a : list Z) :
  ((256 <= length a)%nat -> rt_waterfall_D3S.fix_array a = inr (take 256 a)) /\
  ((length a < 256)%nat -> rt_waterfall_D3S.fix_array a = inl rt_waterfall_D3S.IndexError).
Proof.
  unfold rt_waterfall_D3S.fix_array.
  rewrite (fix_array_loop_spec a 256 0 (replicate 256 0)) by (simpl; (reflexivity || lia)).
  destruct (decide (256 <= length a)%nat); split; intros; (reflexivity || lia).
Qed.

Lemma fix_array_full (a : list Z) :
  full_spectrum a -> rt_waterfall_D3S.fix_array a = inr (take 256 a).
Proof.
  intros H. unfold rt_waterfall_D3S.fix_array.
  rewrite (fix_array_loop_spec a 256 0 (replicate 256 0)) by (simpl; (reflexivity || lia)).
  unfold full_spectrum in H. destruct (decide (256 <= length a)%nat); [reflexivity | lia].
Qed.

Lemma fix_array_short (a : list Z) :
  ~ full_spectrum a -> rt_waterfall_D3S.fix_array a = inl rt_waterfall_D3S.IndexError.
Proof.
  intros H. unfold rt_waterfall_D3S.fix_array.
  rewrite (fix_array_loop_spec a 256 0 (replicate 256 0)) by (simpl; (reflexivity || lia)).
  unfold full_spectrum in H. destruct (decide (256 <= length a)%nat); [lia | reflexivity].
Qed.

Lemma set_queue1_twice (q q' : list (list Z)) (qs : rt_waterfall_D3S.queues) :
  rt_waterfall_D3S.set_queue1 q (rt_waterfall_D3S.set_queue1 q' qs) =
  rt_waterfall_D3S.set_queue1 q qs.
Proof. destruct qs; reflexivity. Qed.

Lemma queue1_set_queue1 (q : list (list Z)) (qs : rt_waterfall_D3S.queues) :
  rt_waterfall_D3S.queue1 (rt_waterfall_D3S.set_queue1 q qs) = q.
Proof. destruct qs; reflexivity. Qed.

Lemma insert_row (done : list (list Z)) (row zero : list Z) (n : nat) :
  <[length done := row]> (done ++ replicate (Datatypes.S n) zero) =
  (done ++ [row]) ++ replicate n zero.
Proof.
  rewrite insert_app_r_alt by lia. rewrite Nat.sub_diag. cbn [replicate].
  rewrite <- app_assoc. reflexivity.
Qed.

(** The loop of [make_image] over spectra that all have their 256 channels. *)
Lemma make_image_loop_full (q1 : list (list Z)) :
  forall (done : list (list Z)) (self : rt_waterfall_D3S.t) (qs : rt_waterfall_D3S.queues),
    Forall full_spectrum q1 ->
    rt_waterfall_D3S.queue1 qs = q1 ->
    rt_waterfall_D3S.image self = Some (done ++ replicate (length q1) (replicate 256 0)) ->
    rt_waterfall_D3S.make_image_loop (length q1) (length done) (self, qs) =
    rt_waterfall_D3S.Done tt
      (rt_waterfall_D3S.set_image (done ++ map (take 256) q1) self,
       rt_waterfall_D3S.set_queue1 [] qs).
Proof.
  induction q1 as [| a q1 IH]; intros done self qs Hfull Hq Himg.
  - simpl. unfold rt_waterfall_D3S.wret. rewrite app_nil_r.
    simpl in Himg. rewrite app_nil_r in Himg.
    f_equal. f_equal.
    + destruct self as [ql img qlen]; simpl in *.
      unfold rt_waterfall_D3S.set_image. simpl. congruence.
    + destruct qs; simpl in *; congruence.
  - inversion Hfull as [| ? ? Ha Hrest]; subst.
    cbn [length rt_waterfall_D3S.make_image_loop] in *.
    unfold rt_waterfall_D3S.wbind, rt_waterfall_D3S.queue1_popleft. cbn [fst snd].
    rewrite Hq. cbn [fst snd]. rewrite (fix_array_full a Ha), Himg. cbn [from_option id].
    rewrite insert_row.
    replace (Datatypes.S (length done)) with (length (done ++ [take 256 a]))
      by (rewrite length_app; simpl; lia).
    rewrite (IH (done ++ [take 256 a])); [| exact Hrest | apply queue1_set_queue1 | reflexivity].
    rewrite set_queue1_twice, <- app_assoc. reflexivity.
Qed.

(** The same loop when a spectrum of the deque has fewer channels. *)
Lemma make_image_loop_short (good : list (list Z)) (bad : list Z) (rest : list (list Z)) :
  forall (done : list (list Z)) (self : rt_waterfall_D3S.t) (qs : rt_waterfall_D3S.queues),
    Forall full_spectrum good ->
    ~ full_spectrum bad ->
    rt_waterfall_D3S.queue1 qs = good ++ bad :: rest ->
    rt_waterfall_D3S.image self =
      Some (done ++ replicate (length (good ++ bad :: rest)) (replicate 256 0)) ->
    rt_waterfall_D3S.make_image_loop (length (good ++ bad :: rest)) (length done) (self, qs) =
    rt_waterfall_D3S.Failed rt_waterfall_D3S.IndexError
      (rt_waterfall_D3S.set_image
         (done ++ map (take 256) good ++
          replicate (Datatypes.S (length rest)) (replicate 256 0)) self,
       rt_waterfall_D3S.set_queue1 rest qs).
Proof.
  induction good as [| a good IH]; intros done self qs Hfull Hbad Hq Himg.
  - cbn [app length rt_waterfall_D3S.make_image_loop] in *.
    unfold rt_waterfall_D3S.wbind, rt_waterfall_D3S.queue1_popleft. cbn [fst snd].
    rewrite Hq. cbn [fst snd]. rewrite (fix_array_short bad Hbad).
    f_equal. f_equal.
    destruct self as [ql img qlen]; simpl in *.
    unfold rt_waterfall_D3S.set_image. simpl. congruence.
  - inversion Hfull as [| ? ? Ha Hrest]; subst.
    cbn [app length rt_waterfall_D3S.make_image_loop] in *.
    unfold rt_waterfall_D3S.wbind, rt_waterfall_D3S.queue1_popleft. cbn [fst snd].
    rewrite Hq. cbn [fst snd]. rewrite (fix_array_full a Ha), Himg. cbn [from_option id].
    rewrite insert_row.
    replace (Datatypes.S (length done)) with (length (done ++ [take 256 a]))
      by (rewrite length_app; simpl; lia).
    rewrite (IH (done ++ [take 256 a]));
      [| exact Hrest | exact Hbad | apply queue1_set_queue1 | reflexivity].
    rewrite set_queue1_twice, <- app_assoc. reflexivity.
Qed.

Lemma fold_left_append (l q0 : list (list Z)) :
  fold_left (fun q i => q ++ [i]) l q0 = q0 ++ l.
Proof.
  revert q0. induction l as [| a l IH]; intros q0; simpl.
  - symmetry. apply app_nil_r.
  - rewrite IH, <- app_assoc. reflexivity.
Qed.

Lemma update_two_deques (s : list Z) (q1 q2 : list (list Z)) (self : rt_waterfall_D3S.t) :
  Forall full_spectrum q1 ->
  full_spectrum s ->
  rt_waterfall_D3S.update s (self, rt_waterfall_D3S.two_deques q1 q2) =
  rt_waterfall_D3S.Done tt
    (rt_waterfall_D3S.mk (rt_waterfall_D3S.queuelength self)
       (Some (map (take 256) (q1 ++ [s]))) (Some (Datatypes.S (length q2))),
     rt_waterfall_D3S.two_deques (q2 ++ [s]) (q2 ++ [s])).
Proof.
  intros Hq1 Hs.
  assert (Hall : Forall full_spectrum (q1 ++ [s])) by (apply Forall_app; split; [exact Hq1 | repeat constructor; exact Hs]).
  unfold rt_waterfall_D3S.update, rt_waterfall_D3S.waterfall_graph,
    rt_waterfall_D3S.get_data, rt_waterfall_D3S.wbind at 1 2 3,
    rt_waterfall_D3S.queue1_append, rt_waterfall_D3S.queue2_append,
    rt_waterfall_D3S.make_image. cbn [fst snd rt_waterfall_D3S.queue1
    rt_waterfall_D3S.queue2 rt_waterfall_D3S.set_queue1 rt_waterfall_D3S.set_queue2].
  unfold rt_waterfall_D3S.wbind at 1.
  change 0%nat with (length (@nil (list Z))) at 1.
  rewrite (make_image_loop_full (q1 ++ [s]) []
             (rt_waterfall_D3S.set_image
                (replicate (length (q1 ++ [s])) (replicate 256 0))
                (rt_waterfall_D3S.set_queue_length (length (q2 ++ [s])) self))
             (rt_waterfall_D3S.two_deques (q1 ++ [s]) (q2 ++ [s]))
             Hall eq_refl eq_refl).
  unfold rt_waterfall_D3S.reset_queue. cbn [fst snd rt_waterfall_D3S.set_queue1].
  rewrite fold_left_append. cbn [app].
  unfold rt_waterfall_D3S.set_image, rt_waterfall_D3S.set_queue_length.
  cbn [rt_waterfall_D3S.queuelength rt_waterfall_D3S.image rt_waterfall_D3S.queue_length].
  rewrite (length_app q2 [s]). cbn [length]. rewrite Nat.add_1_r. reflexivity.
Qed.

(** X16: [update] on two deques, every spectrum at hand having its 256
    channels.  The call returns; [image] holds one row for each spectrum
    that was in [queue1] and one for the new spectrum, each the first 256
    channels; [queue_length] is the new length of [queue2]; and both deques
    end with the items of [queue2] followed by the new spectrum: what
    [queue1] held is replaced by that. *)
Theorem update_replots_and_resets (s : list Z) (q1 q2 : list (list Z))
    (self : rt_waterfall_D3S.t) :
  Forall full_spectrum q1 ->
  full_spectrum s ->
  rt_waterfall_D3S.update s (self, rt_waterfall_D3S.two_deques q1 q2) =
  rt_waterfall_D3S.Done tt
    (rt_waterfall_D3S.mk (rt_waterfall_D3S.queuelength self)
       (Some (map (take 256) (q1 ++ [s]))) (Some (Datatypes.S (length q2))),
     rt_waterfall_D3S.two_deques (q2 ++ [s]) (q2 ++ [s])).
Proof.
  intros Hq1 Hs. apply update_two_deques; assumption.
Qed.

Lemma update_replots_and_resets_witness :
  rt_waterfall_D3S.update (replicate 300 7)
    (rt_waterfall_D3S.mk None None None,
     rt_waterfall_D3S.two_deques [replicate 256 1] [replicate 256 2; replicate 256 3]) =
  rt_waterfall_D3S.Done tt
    (rt_waterfall_D3S.mk None
       (Some (map (take 256) ([replicate 256 1] ++ [replicate 300 7]))) (Some 3%nat),
     rt_waterfall_D3S.two_deques
       ([replicate 256 2; replicate 256 3] ++ [replicate 300 7])
       ([replicate 256 2; replicate 256 3] ++ [replicate 300 7])).
Proof.
  apply (update_replots_and_resets (replicate 300 7) [replicate 256 1]
           [replicate 256 2; replicate 256 3] (rt_waterfall_D3S.mk None None None)).
  - constructor; [| constructor]. unfold full_spectrum. rewrite length_replicate. lia.
  - unfold full_spectrum. rewrite length_replicate. lia.
Defined.

Lemma feed_equal_deques (ss : list (list Z)) :
  forall (q : list (list Z)) (self : rt_waterfall_D3S.t),
    Forall full_spectrum q ->
    Forall full_spectrum ss ->
    feed ss (self, rt_waterfall_D3S.two_deques q q) =
    (match ss with
     | [] => self
     | _ :: _ =>
         rt_waterfall_D3S.mk (rt_waterfall_D3S.queuelength self)
           (Some (map (take 256) (q ++ ss))) (Some (length (q ++ ss)))
     end,
     rt_waterfall_D3S.two_deques (q ++ ss) (q ++ ss)).
Proof.
  induction ss as [| a ss IH]; intros q self Hq Hss.
  - simpl. rewrite app_nil_r. reflexivity.
  - inversion Hss as [| ? ? Ha Hrest]; subst.
    unfold feed. cbn [fold_left].
    rewrite (update_two_deques a q q self Hq Ha).
    cbn [rt_waterfall_D3S.state_after]. fold (feed ss).
    assert (Hqa : Forall full_spectrum (q ++ [a]))
      by (apply Forall_app; split; [exact Hq | repeat constructor; exact Ha]).
    rewrite (IH (q ++ [a]) _ Hqa Hrest).
    rewrite <- !app_assoc. cbn [app].
    destruct ss as [| b ss]; [| reflexivity].
    rewrite length_app. cbn [length]. rewrite Nat.add_1_r. reflexivity.
Qed.

(** X17: fed spectra one after the other, from two deques that hold the same
    items, [update] never drops one: after the last spectrum both deques
    hold the old items and every spectrum received, [image] has a row for
    each of them, [queue_length] counts them, and [queuelength], which the
    constructor sets to None, is left as it was. *)
Theorem feed_keeps_every_spectrum (ss : list (list Z)) (s : list Z) (q : list (list Z))
    (self : rt_waterfall_D3S.t) :
  Forall full_spectrum q ->
  Forall full_spectrum ss ->
  full_spectrum s ->
  feed (ss ++ [s]) (self, rt_waterfall_D3S.two_deques q q) =
  (rt_waterfall_D3S.mk (rt_waterfall_D3S.queuelength self)
     (Some (map (take 256) (q ++ ss ++ [s])))
     (Some (length q + length ss + 1)%nat),
   rt_waterfall_D3S.two_deques (q ++ ss ++ [s]) (q ++ ss ++ [s])).
Proof.
  intros Hq Hss Hs.
  assert (Hall : Forall full_spectrum (ss ++ [s]))
    by (apply Forall_app; split; [exact Hss | repeat constructor; exact Hs]).
  rewrite (feed_equal_deques (ss ++ [s]) q self Hq Hall).
  destruct (ss ++ [s]) as [| a l] eqn:Heq.
  - destruct ss; discriminate.
  - rewrite <- Heq. rewrite !length_app. cbn [length].
    rewrite Nat.add_assoc. reflexivity.
Qed.

Lemma feed_keeps_every_spectrum_witness :
  feed ([replicate 256 1; replicate 260 2] ++ [replicate 256 3])
    (rt_waterfall_D3S.mk None None None, rt_waterfall_D3S.two_deques [] []) =
  (rt_waterfall_D3S.mk None
     (Some (map (take 256) ([] ++ [replicate 256 1; replicate 260 2] ++ [replicate 256 3])))
     (Some (0 + 2 + 1)%nat),
   rt_waterfall_D3S.two_deques
     ([] ++ [replicate 256 1; replicate 260 2] ++ [replicate 256 3])
     ([] ++ [replicate 256 1; replicate 260 2] ++ [replicate 256 3])).
Proof.
  apply (feed_keeps_every_spectrum [replicate 256 1; replicate 260 2] (replicate 256 3) []
           (rt_waterfall_D3S.mk None None None)).
  - constructor.
  - constructor; [| constructor; [| constructor]];
      unfold full_spectrum; rewrite length_replicate; lia.
  - unfold full_spectrum. rewrite length_replicate. lia.
Defined.

(** X18: [update] with one deque passed as both queues.  The spectrum is
    appended twice, [image] has a row for each item the deque held and two
    for the new spectrum, and the deque is left empty: the copy back at the
    end of [make_image] iterates over the deque it has just emptied. *)
Theorem update_on_one_deque_empties_it (s : list Z) (q : list (list Z))
    (self : rt_waterfall_D3S.t) :
  Forall full_spectrum q ->
  full_spectrum s ->
  rt_waterfall_D3S.update s (self, rt_waterfall_D3S.one_deque q) =
  rt_waterfall_D3S.Done tt
    (rt_waterfall_D3S.mk (rt_waterfall_D3S.queuelength self)
       (Some (map (take 256) (q ++ [s; s]))) (Some (length q + 2)%nat),
     rt_waterfall_D3S.one_deque []).
Proof.
  intros Hq Hs.
  assert (Hall : Forall full_spectrum ((q ++ [s]) ++ [s])).
  { apply Forall_app; split; [apply Forall_app; split |];
      [exact Hq | repeat constructor; exact Hs | repeat constructor; exact Hs]. }
  unfold rt_waterfall_D3S.update, rt_waterfall_D3S.waterfall_graph,
    rt_waterfall_D3S.get_data, rt_waterfall_D3S.wbind at 1 2 3,
    rt_waterfall_D3S.queue1_append, rt_waterfall_D3S.queue2_append,
    rt_waterfall_D3S.make_image. cbn [fst snd rt_waterfall_D3S.queue1
    rt_waterfall_D3S.queue2 rt_waterfall_D3S.set_queue1 rt_waterfall_D3S.set_queue2].
  unfold rt_waterfall_D3S.wbind at 1.
  change 0%nat with (length (@nil (list Z))) at 1.
  rewrite (make_image_loop_full ((q ++ [s]) ++ [s]) []
             (rt_waterfall_D3S.set_image
                (replicate (length ((q ++ [s]) ++ [s])) (replicate 256 0))
                (rt_waterfall_D3S.set_queue_length (length ((q ++ [s]) ++ [s])) self))
             (rt_waterfall_D3S.one_deque ((q ++ [s]) ++ [s]))
             Hall eq_refl eq_refl).
  unfold rt_waterfall_D3S.reset_queue. cbn [fst snd rt_waterfall_D3S.set_queue1 app].
  unfold rt_waterfall_D3S.set_image, rt_waterfall_D3S.set_queue_length.
  cbn [rt_waterfall_D3S.queuelength rt_waterfall_D3S.image rt_waterfall_D3S.queue_length].
  rewrite <- (app_assoc q [s] [s]). cbn [app].
  rewrite (length_app q [s; s]). cbn [length]. reflexivity.
Qed.

Lemma update_on_one_deque_empties_it_witness :
  rt_waterfall_D3S.update (replicate 256 7)
    (rt_waterfall_D3S.mk None None None, rt_waterfall_D3S.one_deque [replicate 256 1]) =
  rt_waterfall_D3S.Done tt
    (rt_waterfall_D3S.mk None
       (Some (map (take 256) ([replicate 256 1] ++ [replicate 256 7; replicate 256 7])))
       (Some (1 + 2)%nat),
     rt_waterfall_D3S.one_deque []).
Proof.
  apply (update_on_one_deque_empties_it (replicate 256 7) [replicate 256 1]
           (rt_waterfall_D3S.mk None None None)).
  - constructor; [| constructor]. unfold full_spectrum. rewrite length_replicate. lia.
  - unfold full_spectrum. rewrite length_replicate. lia.
Defined.

(** X19: [update] when a spectrum at hand has fewer than 256 channels.  Let
    [bad] be the first such spectrum among the items of [queue1] followed by
    the new spectrum.  The call raises IndexError; by then [queue1] has lost
    every item up to [bad] included, [image] has the rows of the items
    before [bad] and rows of zeros after, and [queue2] has the new spectrum
    appended. *)
Theorem update_fails_on_short_spectrum (s : list Z) (q1 q2 good rest : list (list Z))
    (bad : list Z) (self : rt_waterfall_D3S.t) :
  q1 ++ [s] = good ++ bad :: rest ->
  Forall full_spectrum good ->
  ~ full_spectrum bad ->
  rt_waterfall_D3S.update s (self, rt_waterfall_D3S.two_deques q1 q2) =
  rt_waterfall_D3S.Failed rt_waterfall_D3S.IndexError
    (rt_waterfall_D3S.mk (rt_waterfall_D3S.queuelength self)
       (Some (map (take 256) good ++
              replicate (Datatypes.S (length rest)) (replicate 256 0)))
       (Some (Datatypes.S (length q2))),
     rt_waterfall_D3S.two_deques rest (q2 ++ [s])).
Proof.
  intros Hsplit Hgood Hbad.
  unfold rt_waterfall_D3S.update, rt_waterfall_D3S.waterfall_graph,
    rt_waterfall_D3S.get_data, rt_waterfall_D3S.wbind at 1 2 3,
    rt_waterfall_D3S.queue1_append, rt_waterfall_D3S.queue2_append,
    rt_waterfall_D3S.make_image. cbn [fst snd rt_waterfall_D3S.queue1
    rt_waterfall_D3S.queue2 rt_waterfall_D3S.set_queue1 rt_waterfall_D3S.set_queue2].
  unfold rt_waterfall_D3S.wbind at 1.
  rewrite Hsplit.
  change 0%nat with (length (@nil (list Z))) at 1.
  rewrite (make_image_loop_short good bad rest []
             (rt_waterfall_D3S.set_image
                (replicate (length (good ++ bad :: rest)) (replicate 256 0))
                (rt_waterfall_D3S.set_queue_length (length (q2 ++ [s])) self))
             (rt_waterfall_D3S.two_deques (good ++ bad :: rest) (q2 ++ [s]))
             Hgood Hbad eq_refl eq_refl).
  cbn [rt_waterfall_D3S.set_queue1 app].
  unfold rt_waterfall_D3S.set_image, rt_waterfall_D3S.set_queue_length.
  cbn [rt_waterfall_D3S.queuelength rt_waterfall_D3S.image rt_waterfall_D3S.queue_length].
  rewrite (length_app q2 [s]). cbn [length]. rewrite Nat.add_1_r. reflexivity.
Qed.

Lemma update_fails_on_short_spectrum_witness :
  rt_waterfall_D3S.update (replicate 255 7)
    (rt_waterfall_D3S.mk None None None,
     rt_waterfall_D3S.two_deques [replicate 256 1] [replicate 256 1]) =
  rt_waterfall_D3S.Failed rt_waterfall_D3S.IndexError
    (rt_waterfall_D3S.mk None
       (Some (map (take 256) [replicate 256 1] ++ replicate 1 (replicate 256 0)))
       (Some 2%nat),
     rt_waterfall_D3S.two_deques [] ([replicate 256 1] ++ [replicate 255 7])).
Proof.
  apply (update_fails_on_short_spectrum (replicate 255 7) [replicate 256 1] [replicate 256 1]
           [replicate 256 1] [] (replicate 255 7) (rt_waterfall_D3S.mk None None None)).
  - reflexivity.
  - constructor; [| constructor]. unfold full_spectrum. rewrite length_replicate. lia.
  - unfold full_spectrum. rewrite length_replicate. lia.
Defined.

(** ** The constructors of dosimeter.py *)

Lemma dosimeter_LED_init (pin : Z) (w : World) :
  dosimeter.LED.__init__ pin w =
  Returned (dosimeter.LED.mk pin None)
    (set_gpio (mkGPIO true (<[pin := OUT]> (channels (gpio w))) (levels (gpio w))
                      (detections (gpio w))) w).
Proof. reflexivity. Qed.

Lemma Dosimeter_init_with_LED (led : dosimeter.LED.t) (s : Z) (w : World) :
  detections (gpio w) !! SIGNAL_PIN = None ->
  Dosimeter.__init__ (Some led) s w =
  Returned (Dosimeter.mk (Some led) [] (timedelta_seconds s))
    (set_gpio (mkGPIO true (<[SIGNAL_PIN := IN]> (channels (gpio w))) (levels (gpio w))
                      (<[SIGNAL_PIN := 1]> (detections (gpio w)))) w).
Proof.
  intros Hnone.
  unfold Dosimeter.__init__, bind, ret, GPIO.setmode_BCM, GPIO.setup, call,
    Dosimeter.add_interrupt, world, zoom, GPIO.add_event_detect.
  cbn [gpio set_gpio mode_set channels levels detections fst snd].
  rewrite lookup_insert_eq, Hnone. reflexivity.
Qed.

(** A second [Dosimeter] in the same process finds the detection of the
    first on the signal pin, and its constructor raises. *)
Lemma Dosimeter_init_conflict (counts_LED : option dosimeter.LED.t) (s : Z) (w : World) :
  is_Some (detections (gpio w) !! SIGNAL_PIN) ->
  exists w' : World,
    Dosimeter.__init__ counts_LED s w = Raised RuntimeError w' /\
    detections (gpio w') = detections (gpio w).
Proof.
  intros [b Hb].
  unfold Dosimeter.__init__, bind, ret, GPIO.setmode_BCM, GPIO.setup, call,
    Dosimeter.add_interrupt, world, zoom, GPIO.add_event_detect, print.
  destruct counts_LED as [led |];
    cbn [gpio set_gpio emit mode_set channels levels detections fst snd];
    rewrite lookup_insert_eq, Hb; eexists; split; reflexivity.
Qed.

(** [reset_GPIO] on a Dosimeter whose detection is registered removes it and
    registers it again: the GPIO state is as it was. *)
Lemma reset_GPIO_rearms (self : Dosimeter.t) (w : World) :
  channels (gpio w) !! SIGNAL_PIN = Some IN ->
  detections (gpio w) !! SIGNAL_PIN = Some 1 ->
  Dosimeter.reset_GPIO (self, w) = Returned tt (self, w).
Proof.
  intros Hch Hdet.
  unfold Dosimeter.reset_GPIO, Dosimeter.add_interrupt, bind, world, zoom,
    GPIO.remove_event_detect, GPIO.add_event_detect.
  cbn [gpio set_gpio mode_set channels levels detections fst snd].
  rewrite Hch, lookup_delete_eq, insert_delete_eq, (insert_id _ _ _ Hdet).
  destruct w as [r g ps c t pst pn tr]; destruct g; reflexivity.
Qed.

(** X20: [DosimeterTimer(...)] with a power LED off the signal pin, where no
    edge detection is registered on the signal pin yet, returns a timer
    that is not running, with the interval asked for, three LEDs without
    blink task and a Dosimeter that holds the counts LED, an empty window
    and a retention of 3600 s; the power LED is driven high, which is the
    only write; and the signal pin is an input with a falling-edge
    detection of bounce time 1 registered. *)
Theorem DosimeterTimer_init (network_pin power_pin counts_pin : Z) (dt : Q) (w : World) :
  power_pin <> SIGNAL_PIN ->
  detections (gpio w) !! SIGNAL_PIN = None ->
  exists w' : World,
    DosimeterTimer.__init__ network_pin power_pin counts_pin dt w =
      Returned
        (DosimeterTimer.mk (dosimeter.LED.mk network_pin None)
           (dosimeter.LED.mk power_pin None) (dosimeter.LED.mk counts_pin None)
           (Dosimeter.mk (Some (dosimeter.LED.mk counts_pin None)) [] 3600000000)
           dt false)
        w' /\
    pin_level w' power_pin = Some true /\
    trace w' = trace w ++ [Wrote power_pin true] /\
    channels (gpio w') !! SIGNAL_PIN = Some IN /\
    detections (gpio w') !! SIGNAL_PIN = Some 1.
Proof.
  intros Hpower Hnone.
  unfold DosimeterTimer.__init__.
  unfold bind at 1. rewrite dosimeter_LED_init.
  unfold bind at 1. rewrite dosimeter_LED_init.
  unfold bind at 1. rewrite dosimeter_LED_init.
  set (w3 := set_gpio _ (set_gpio _ (set_gpio _ w))).
  assert (Hlive : pin_live w3 power_pin).
  { unfold pin_live, w3. cbn [gpio set_gpio channels].
    destruct (decide (counts_pin = power_pin)) as [-> | Hne].
    - apply lookup_insert_eq.
    - rewrite lookup_insert_ne by exact Hne. apply lookup_insert_eq. }
  unfold bind at 1. unfold call, dosimeter.LED.on, bind at 1, this, world, zoom.
  cbn [fst snd dosimeter.LED.pin].
  rewrite (output_live power_pin true w3 Hlive). cbn [fst snd].
  unfold bind at 1.
  rewrite (Dosimeter_init_with_LED (dosimeter.LED.mk counts_pin None) 3600
             (driven power_pin true w3) Hnone).
  unfold ret.
  eexists. split; [reflexivity |].
  unfold pin_level, pin_live in *. cbn [gpio set_gpio channels levels detections driven emit trace].
  split.
  - rewrite lookup_insert_ne by (intros Heq; apply Hpower; symmetry; exact Heq).
    rewrite Hlive. apply lookup_insert_eq.
  - split; [reflexivity |]. split; apply lookup_insert_eq.
Qed.

Lemma DosimeterTimer_init_witness :
  exists w' : World,
    DosimeterTimer.__init__ NETWORK_LED_PIN POWER_LED_PIN COUNTS_LED_PIN 300
      (boot_world (fun _ => 0) (fun _ => 0)) =
      Returned
        (DosimeterTimer.mk (dosimeter.LED.mk NETWORK_LED_PIN None)
           (dosimeter.LED.mk POWER_LED_PIN None) (dosimeter.LED.mk COUNTS_LED_PIN None)
           (Dosimeter.mk (Some (dosimeter.LED.mk COUNTS_LED_PIN None)) [] 3600000000)
           300 false)
        w' /\
    pin_level w' POWER_LED_PIN = Some true /\
    trace w' = [] ++ [Wrote POWER_LED_PIN true] /\
    channels (gpio w') !! SIGNAL_PIN = Some IN /\
    detections (gpio w') !! SIGNAL_PIN = Some 1.
Proof.
  apply (DosimeterTimer_init NETWORK_LED_PIN POWER_LED_PIN COUNTS_LED_PIN 300
           (boot_world (fun _ => 0) (fun _ => 0))).
  - discriminate.
  - apply lookup_empty.
Defined.

(** ** Tearing the GPIO down *)

(** X21: the GPIO state is shared by every object.  After [cleanup] of a
    [Dosimeter] or of a [NetworkStatus] no pin is a live output any more, so
    the next [count] of any Dosimeter that holds an LED raises RuntimeError,
    whichever object was cleaned up. *)
Theorem cleanup_anywhere_breaks_flash (ns : NetworkStatus.t) (d : Dosimeter.t) (w : World) :
  let w1 := snd (final_state (NetworkStatus.cleanup (ns, w))) in
  let w2 := snd (final_state (Dosimeter.cleanup (d, w))) in
  (forall pin : Z, ~ pin_live w1 pin /\ ~ pin_live w2 pin) /\
  (forall (self : Dosimeter.t) (led : dosimeter.LED.t),
      Dosimeter.LED self = Some led ->
      raises (Dosimeter.count (self, w1)) RuntimeError /\
      raises (Dosimeter.count (self, w2)) RuntimeError).
Proof.
  cbv zeta.
  assert (Hdead : forall pin : Z,
             ~ pin_live (snd (final_state (NetworkStatus.cleanup (ns, w)))) pin /\
             ~ pin_live (snd (final_state (Dosimeter.cleanup (d, w)))) pin).
  { intros pin. unfold pin_live. simpl. rewrite lookup_empty. split; discriminate. }
  split; [exact Hdead |].
  intros self led HLED.
  destruct (Hdead (dosimeter.LED.pin led)) as [H1 H2].
  rewrite (count_fault_propagates_aux self _ led HLED H1).
  rewrite (count_fault_propagates_aux self _ led HLED H2).
  split; reflexivity.
Qed.
